(** * DentalFlow mobile client: the frame-streaming protocol engine

    A shallow embedding of the two screens of the repository,
    [src/app/index.tsx] (module [Index]) and [src/app/modal.tsx]
    (module [Modal]), followed by the properties of the streaming engine.

    Both screens are React function components.  Their state lives in
    [useState] cells and [useRef] cells; every handler runs to completion on
    the single event loop, so a handler is modelled as a function from the
    component state to the component state, and the environment (socket
    callbacks, timers, camera completions, button presses) as a type of
    events consumed by a [step] function.

    Conventions of the embedding:
    - JS numbers that count things (frame counters, timestamps in ms) are
      [Z]; the capture interval, obtained by a division, is a rational [Q].
    - JS strings are [string] (byte strings).
    - A closure created during a render keeps the values of that render;
      timers and in-flight captures therefore carry the values they captured.
    - [Date.now()] and [new Date().toLocaleTimeString()] are read from the
      event that triggers the handler. *)

From Stdlib Require Import ZArith QArith Bool String Ascii List Lia DecimalString.
Import ListNotations.

Local Open Scope Z_scope.
Local Open Scope string_scope.

(** ** JavaScript values and the operators the handlers use *)

Module Js.

(** A value read from a parsed JSON message.  [JUndefined] is what reading
    an absent field gives.  A number with a fractional part, an object and
    an array carry the text that string conversion yields for them.  An
    array also carries whether React accepts it as a child of an element:
    this is so when each of its elements is a string, a number, a boolean,
    [null] or again such an array. *)
Inductive jsval : Type :=
| JUndefined
| JNull
| JBool (b : bool)
| JInt (z : Z)
| JFloat (rendering : string)
| JStr (s : string)
| JObj (rendering : string)
| JArr (rendering : string) (renderable : bool).

(** ToBoolean. A number with a fractional part is never zero. *)
Definition truthy (v : jsval) : bool :=
  match v with
  | JUndefined | JNull => false
  | JBool b => b
  | JInt z => negb (Z.eqb z 0)
  | JFloat _ => true
  | JStr s => negb (String.eqb s "")
  | JObj _ => true
  | JArr _ _ => true
  end.

(** [a || b] *)
Definition or (a b : jsval) : jsval := if truthy a then a else b.

Definition string_of_Z (z : Z) : string := NilZero.string_of_int (Z.to_int z).

(** String conversion, as done by [.toString()] and by [+] with a string
    operand.  The method call is only ever applied to a value that went
    through [|| ''], hence never to [undefined] or [null]. *)
Definition toString (v : jsval) : string :=
  match v with
  | JUndefined => "undefined"
  | JNull => "null"
  | JBool true => "true"
  | JBool false => "false"
  | JInt z => string_of_Z z
  | JFloat r => r
  | JStr s => s
  | JObj r => r
  | JArr r _ => r
  end.

Definition lower_ascii (c : ascii) : ascii :=
  let n := nat_of_ascii c in
  if ((65 <=? n) && (n <=? 90))%nat then ascii_of_nat (n + 32) else c.

(** [String.prototype.toLowerCase] on the ASCII letters; other bytes are
    left as they are. *)
Fixpoint toLowerCase (s : string) : string :=
  match s with
  | EmptyString => EmptyString
  | String c rest => String (lower_ascii c) (toLowerCase rest)
  end.

(** [arr.slice(-n)]: the last [n] elements, all of them when there are
    fewer. *)
Definition slice_last {A : Type} (n : nat) (l : list A) : list A :=
  skipn (length l - n) l.

(** [arr.indexOf(x)] on an array of numbers, [-1] when absent. *)
Fixpoint indexOf_from (x : Z) (l : list Z) (i : Z) : Z :=
  match l with
  | [] => -1
  | y :: rest => if Z.eqb x y then i else indexOf_from x rest (i + 1)
  end.

Definition indexOf (x : Z) (l : list Z) : Z := indexOf_from x l 0.

(** Removing the entry at a position of a list of pending callbacks. *)
Definition remove_nth {A : Type} (i : nat) (l : list A) : list A :=
  firstn i l ++ skipn (S i) l.

(** Replacing the entry at a position; nothing happens out of range. *)
Fixpoint set_nth {A : Type} (i : nat) (x : A) (l : list A) : list A :=
  match l, i with
  | [], _ => []
  | _ :: rest, O => x :: rest
  | y :: rest, S j => y :: set_nth j x rest
  end.

End Js.

Import Js.

(** ** What both screens share: sockets, camera results, inbound payloads *)

(** [WebSocket.readyState] *)
Inductive ReadyState : Type := CONNECTING | OPEN | CLOSING | CLOSED.

(** The fields of an inbound message that the handlers read. *)
Record Data : Type := mkData {
  d_type : jsval;
  d_action : jsval;
  d_msg_type : jsval;
  d_predicted_class : jsval;
  d_confidence : jsval;
  d_message : jsval;
  d_frame_count : jsval
}.

(** The text frame handed to [ws.onmessage].  [Malformed] stands for every
    payload on which [JSON.parse] or the first property access throws; the
    [try]/[catch] of [onmessage] then logs and drops it. *)
Inductive Payload : Type :=
| Malformed
| Parsed (data : Data).

(** What [takePictureAsync] resolves to: a photo with its base64 text and
    dimensions, nothing, or a rejection. *)
Inductive CaptureResult : Type :=
| Photo (base64 : string) (width height : Z)
| NoPhoto
| CaptureError.

(** [photo?.base64] as a condition *)
Definition has_base64 (r : CaptureResult) : bool :=
  match r with
  | Photo b _ _ => negb (String.eqb b "")
  | _ => false
  end.

Inductive CameraType : Type := front | back.

Record Prediction : Type := mkPrediction {
  predicted_class : jsval;
  confidence : jsval;
  p_timestamp : string
}.

Record SystemMessage : Type := mkSystemMessage {
  message : jsval;
  s_timestamp : string
}.

(** [type ChatMessage = Prediction | SystemMessage] *)
Inductive ChatMessage : Type :=
| ChatPrediction (p : Prediction)
| ChatSystem (m : SystemMessage).

(** ** The main screen, [src/app/index.tsx] *)

Module Index.

(** The messages the screen sends on the socket. *)
Inductive OutMsg : Type :=
| video_frame (frame : string) (frame_number timestamp width height : Z)
| ack (frame_count fps : Z)
| start_video_stream (target_fps predict_every_frames : Z)
| stop_video_stream.

(** The repeating timer installed by [startVideoStream]: its callback is the
    closure [captureFrame], which keeps the [streamFPS] and the
    [frameInterval] of the call that created it; [iv_delay] is the period
    handed to [setInterval]. *)
Record Interval : Type := mkInterval {
  iv_streamFPS : Z;
  iv_frameInterval : Q;
  iv_delay : Q
}.

(** A [captureFrame] call suspended at [await takePictureAsync(...)]: it
    keeps the [now] it read before the call and its closure's values. *)
Record InFlight : Type := mkInFlight {
  cap_now : Z;
  cap_streamFPS : Z
}.

(** The callbacks handed to [setTimeout], with the values of the render
    that created them. *)
Inductive Callback : Type :=
| RetryStartAnalysis (isConnected_then : bool) (streamFPS_then : Z)
| DelayedStartVideoStream (streamFPS_then : Z)
| RestartVideoStream (streamFPS_then newFPS : Z).

Record Timeout : Type := mkTimeout {
  callback : Callback;
  delay_ms : Z
}.

(** The [useState] cells, the [useRef] cells, and the environment the
    handlers act on: the sockets created so far with their [readyState],
    the captures in flight, the pending timeouts and the messages
    transmitted so far (oldest first). *)
Record State : Type := mkState {
  analysisActive : bool;
  chatHistory : list ChatMessage;
  totalPredictions : Z;
  currentPrediction : option Prediction;
  status : string;
  isConnected : bool;
  streamFPS : Z;
  facing : CameraType;
  cameraRef : bool;
  wsRef : option nat;
  frameCountRef : Z;
  captureIntervalRef : option Interval;
  errorAlertShownRef : bool;
  isStreamingRef : bool;
  lastFrameTimeRef : Z;
  isMountedRef : bool;
  sockets : list ReadyState;
  inflight : list InFlight;
  timeouts : list Timeout;
  sent : list OutMsg
}.

Definition setAnalysisActive (v : bool) (s : State) : State :=
  {| analysisActive := v; chatHistory := chatHistory s;
     totalPredictions := totalPredictions s;
     currentPrediction := currentPrediction s; status := status s;
     isConnected := isConnected s; streamFPS := streamFPS s;
     facing := facing s; cameraRef := cameraRef s; wsRef := wsRef s;
     frameCountRef := frameCountRef s;
     captureIntervalRef := captureIntervalRef s;
     errorAlertShownRef := errorAlertShownRef s;
     isStreamingRef := isStreamingRef s;
     lastFrameTimeRef := lastFrameTimeRef s; isMountedRef := isMountedRef s;
     sockets := sockets s; inflight := inflight s; timeouts := timeouts s;
     sent := sent s |}.

Definition setChatHistory (v : list ChatMessage) (s : State) : State :=
  {| analysisActive := analysisActive s; chatHistory := v;
     totalPredictions := totalPredictions s;
     currentPrediction := currentPrediction s; status := status s;
     isConnected := isConnected s; streamFPS := streamFPS s;
     facing := facing s; cameraRef := cameraRef s; wsRef := wsRef s;
     frameCountRef := frameCountRef s;
     captureIntervalRef := captureIntervalRef s;
     errorAlertShownRef := errorAlertShownRef s;
     isStreamingRef := isStreamingRef s;
     lastFrameTimeRef := lastFrameTimeRef s; isMountedRef := isMountedRef s;
     sockets := sockets s; inflight := inflight s; timeouts := timeouts s;
     sent := sent s |}.

Definition setTotalPredictions (v : Z) (s : State) : State :=
  {| analysisActive := analysisActive s; chatHistory := chatHistory s;
     totalPredictions := v; currentPrediction := currentPrediction s;
     status := status s; isConnected := isConnected s;
     streamFPS := streamFPS s; facing := facing s; cameraRef := cameraRef s;
     wsRef := wsRef s; frameCountRef := frameCountRef s;
     captureIntervalRef := captureIntervalRef s;
     errorAlertShownRef := errorAlertShownRef s;
     isStreamingRef := isStreamingRef s;
     lastFrameTimeRef := lastFrameTimeRef s; isMountedRef := isMountedRef s;
     sockets := sockets s; inflight := inflight s; timeouts := timeouts s;
     sent := sent s |}.

Definition setCurrentPrediction (v : option Prediction) (s : State) : State :=
  {| analysisActive := analysisActive s; chatHistory := chatHistory s;
     totalPredictions := totalPredictions s; currentPrediction := v;
     status := status s; isConnected := isConnected s;
     streamFPS := streamFPS s; facing := facing s; cameraRef := cameraRef s;
     wsRef := wsRef s; frameCountRef := frameCountRef s;
     captureIntervalRef := captureIntervalRef s;
     errorAlertShownRef := errorAlertShownRef s;
     isStreamingRef := isStreamingRef s;
     lastFrameTimeRef := lastFrameTimeRef s; isMountedRef := isMountedRef s;
     sockets := sockets s; inflight := inflight s; timeouts := timeouts s;
     sent := sent s |}.

Definition setStatus (v : string) (s : State) : State :=
  {| analysisActive := analysisActive s; chatHistory := chatHistory s;
     totalPredictions := totalPredictions s;
     currentPrediction := currentPrediction s; status := v;
     isConnected := isConnected s; streamFPS := streamFPS s;
     facing := facing s; cameraRef := cameraRef s; wsRef := wsRef s;
     frameCountRef := frameCountRef s;
     captureIntervalRef := captureIntervalRef s;
     errorAlertShownRef := errorAlertShownRef s;
     isStreamingRef := isStreamingRef s;
     lastFrameTimeRef := lastFrameTimeRef s; isMountedRef := isMountedRef s;
     sockets := sockets s; inflight := inflight s; timeouts := timeouts s;
     sent := sent s |}.

Definition setIsConnected (v : bool) (s : State) : State :=
  {| analysisActive := analysisActive s; chatHistory := chatHistory s;
     totalPredictions := totalPredictions s;
     currentPrediction := currentPrediction s; status := status s;
     isConnected := v; streamFPS := streamFPS s; facing := facing s;
     cameraRef := cameraRef s; wsRef := wsRef s;
     frameCountRef := frameCountRef s;
     captureIntervalRef := captureIntervalRef s;
     errorAlertShownRef := errorAlertShownRef s;
     isStreamingRef := isStreamingRef s;
     lastFrameTimeRef := lastFrameTimeRef s; isMountedRef := isMountedRef s;
     sockets := sockets s; inflight := inflight s; timeouts := timeouts s;
     sent := sent s |}.

Definition setStreamFPS (v : Z) (s : State) : State :=
  {| analysisActive := analysisActive s; chatHistory := chatHistory s;
     totalPredictions := totalPredictions s;
     currentPrediction := currentPrediction s; status := status s;
     isConnected := isConnected s; streamFPS := v; facing := facing s;
     cameraRef := cameraRef s; wsRef := wsRef s;
     frameCountRef := frameCountRef s;
     captureIntervalRef := captureIntervalRef s;
     errorAlertShownRef := errorAlertShownRef s;
     isStreamingRef := isStreamingRef s;
     lastFrameTimeRef := lastFrameTimeRef s; isMountedRef := isMountedRef s;
     sockets := sockets s; inflight := inflight s; timeouts := timeouts s;
     sent := sent s |}.

Definition setFacing (v : CameraType) (s : State) : State :=
  {| analysisActive := analysisActive s; chatHistory := chatHistory s;
     totalPredictions := totalPredictions s;
     currentPrediction := currentPrediction s; status := status s;
     isConnected := isConnected s; streamFPS := streamFPS s; facing := v;
     cameraRef := cameraRef s; wsRef := wsRef s;
     frameCountRef := frameCountRef s;
     captureIntervalRef := captureIntervalRef s;
     errorAlertShownRef := errorAlertShownRef s;
     isStreamingRef := isStreamingRef s;
     lastFrameTimeRef := lastFrameTimeRef s; isMountedRef := isMountedRef s;
     sockets := sockets s; inflight := inflight s; timeouts := timeouts s;
     sent := sent s |}.

Definition set_cameraRef (v : bool) (s : State) : State :=
  {| analysisActive := analysisActive s; chatHistory := chatHistory s;
     totalPredictions := totalPredictions s;
     currentPrediction := currentPrediction s; status := status s;
     isConnected := isConnected s; streamFPS := streamFPS s;
     facing := facing s; cameraRef := v; wsRef := wsRef s;
     frameCountRef := frameCountRef s;
     captureIntervalRef := captureIntervalRef s;
     errorAlertShownRef := errorAlertShownRef s;
     isStreamingRef := isStreamingRef s;
     lastFrameTimeRef := lastFrameTimeRef s; isMountedRef := isMountedRef s;
     sockets := sockets s; inflight := inflight s; timeouts := timeouts s;
     sent := sent s |}.

Definition set_wsRef (v : option nat) (s : State) : State :=
  {| analysisActive := analysisActive s; chatHistory := chatHistory s;
     totalPredictions := totalPredictions s;
     currentPrediction := currentPrediction s; status := status s;
     isConnected := isConnected s; streamFPS := streamFPS s;
     facing := facing s; cameraRef := cameraRef s; wsRef := v;
     frameCountRef := frameCountRef s;
     captureIntervalRef := captureIntervalRef s;
     errorAlertShownRef := errorAlertShownRef s;
     isStreamingRef := isStreamingRef s;
     lastFrameTimeRef := lastFrameTimeRef s; isMountedRef := isMountedRef s;
     sockets := sockets s; inflight := inflight s; timeouts := timeouts s;
     sent := sent s |}.

Definition set_frameCountRef (v : Z) (s : State) : State :=
  {| analysisActive := analysisActive s; chatHistory := chatHistory s;
     totalPredictions := totalPredictions s;
     currentPrediction := currentPrediction s; status := status s;
     isConnected := isConnected s; streamFPS := streamFPS s;
     facing := facing s; cameraRef := cameraRef s; wsRef := wsRef s;
     frameCountRef := v; captureIntervalRef := captureIntervalRef s;
     errorAlertShownRef := errorAlertShownRef s;
     isStreamingRef := isStreamingRef s;
     lastFrameTimeRef := lastFrameTimeRef s; isMountedRef := isMountedRef s;
     sockets := sockets s; inflight := inflight s; timeouts := timeouts s;
     sent := sent s |}.

Definition set_captureIntervalRef (v : option Interval) (s : State) : State :=
  {| analysisActive := analysisActive s; chatHistory := chatHistory s;
     totalPredictions := totalPredictions s;
     currentPrediction := currentPrediction s; status := status s;
     isConnected := isConnected s; streamFPS := streamFPS s;
     facing := facing s; cameraRef := cameraRef s; wsRef := wsRef s;
     frameCountRef := frameCountRef s; captureIntervalRef := v;
     errorAlertShownRef := errorAlertShownRef s;
     isStreamingRef := isStreamingRef s;
     lastFrameTimeRef := lastFrameTimeRef s; isMountedRef := isMountedRef s;
     sockets := sockets s; inflight := inflight s; timeouts := timeouts s;
     sent := sent s |}.

Definition set_errorAlertShownRef (v : bool) (s : State) : State :=
  {| analysisActive := analysisActive s; chatHistory := chatHistory s;
     totalPredictions := totalPredictions s;
     currentPrediction := currentPrediction s; status := status s;
     isConnected := isConnected s; streamFPS := streamFPS s;
     facing := facing s; cameraRef := cameraRef s; wsRef := wsRef s;
     frameCountRef := frameCountRef s;
     captureIntervalRef := captureIntervalRef s; errorAlertShownRef := v;
     isStreamingRef := isStreamingRef s;
     lastFrameTimeRef := lastFrameTimeRef s; isMountedRef := isMountedRef s;
     sockets := sockets s; inflight := inflight s; timeouts := timeouts s;
     sent := sent s |}.

Definition set_isStreamingRef (v : bool) (s : State) : State :=
  {| analysisActive := analysisActive s; chatHistory := chatHistory s;
     totalPredictions := totalPredictions s;
     currentPrediction := currentPrediction s; status := status s;
     isConnected := isConnected s; streamFPS := streamFPS s;
     facing := facing s; cameraRef := cameraRef s; wsRef := wsRef s;
     frameCountRef := frameCountRef s;
     captureIntervalRef := captureIntervalRef s;
     errorAlertShownRef := errorAlertShownRef s; isStreamingRef := v;
     lastFrameTimeRef := lastFrameTimeRef s; isMountedRef := isMountedRef s;
     sockets := sockets s; inflight := inflight s; timeouts := timeouts s;
     sent := sent s |}.

Definition set_lastFrameTimeRef (v : Z) (s : State) : State :=
  {| analysisActive := analysisActive s; chatHistory := chatHistory s;
     totalPredictions := totalPredictions s;
     currentPrediction := currentPrediction s; status := status s;
     isConnected := isConnected s; streamFPS := streamFPS s;
     facing := facing s; cameraRef := cameraRef s; wsRef := wsRef s;
     frameCountRef := frameCountRef s;
     captureIntervalRef := captureIntervalRef s;
     errorAlertShownRef := errorAlertShownRef s;
     isStreamingRef := isStreamingRef s; lastFrameTimeRef := v;
     isMountedRef := isMountedRef s; sockets := sockets s;
     inflight := inflight s; timeouts := timeouts s; sent := sent s |}.

Definition set_isMountedRef (v : bool) (s : State) : State :=
  {| analysisActive := analysisActive s; chatHistory := chatHistory s;
     totalPredictions := totalPredictions s;
     currentPrediction := currentPrediction s; status := status s;
     isConnected := isConnected s; streamFPS := streamFPS s;
     facing := facing s; cameraRef := cameraRef s; wsRef := wsRef s;
     frameCountRef := frameCountRef s;
     captureIntervalRef := captureIntervalRef s;
     errorAlertShownRef := errorAlertShownRef s;
     isStreamingRef := isStreamingRef s;
     lastFrameTimeRef := lastFrameTimeRef s; isMountedRef := v;
     sockets := sockets s; inflight := inflight s; timeouts := timeouts s;
     sent := sent s |}.

Definition set_sockets (v : list ReadyState) (s : State) : State :=
  {| analysisActive := analysisActive s; chatHistory := chatHistory s;
     totalPredictions := totalPredictions s;
     currentPrediction := currentPrediction s; status := status s;
     isConnected := isConnected s; streamFPS := streamFPS s;
     facing := facing s; cameraRef := cameraRef s; wsRef := wsRef s;
     frameCountRef := frameCountRef s;
     captureIntervalRef := captureIntervalRef s;
     errorAlertShownRef := errorAlertShownRef s;
     isStreamingRef := isStreamingRef s;
     lastFrameTimeRef := lastFrameTimeRef s; isMountedRef := isMountedRef s;
     sockets := v; inflight := inflight s; timeouts := timeouts s;
     sent := sent s |}.

Definition set_inflight (v : list InFlight) (s : State) : State :=
  {| analysisActive := analysisActive s; chatHistory := chatHistory s;
     totalPredictions := totalPredictions s;
     currentPrediction := currentPrediction s; status := status s;
     isConnected := isConnected s; streamFPS := streamFPS s;
     facing := facing s; cameraRef := cameraRef s; wsRef := wsRef s;
     frameCountRef := frameCountRef s;
     captureIntervalRef := captureIntervalRef s;
     errorAlertShownRef := errorAlertShownRef s;
     isStreamingRef := isStreamingRef s;
     lastFrameTimeRef := lastFrameTimeRef s; isMountedRef := isMountedRef s;
     sockets := sockets s; inflight := v; timeouts := timeouts s;
     sent := sent s |}.

Definition set_timeouts (v : list Timeout) (s : State) : State :=
  {| analysisActive := analysisActive s; chatHistory := chatHistory s;
     totalPredictions := totalPredictions s;
     currentPrediction := currentPrediction s; status := status s;
     isConnected := isConnected s; streamFPS := streamFPS s;
     facing := facing s; cameraRef := cameraRef s; wsRef := wsRef s;
     frameCountRef := frameCountRef s;
     captureIntervalRef := captureIntervalRef s;
     errorAlertShownRef := errorAlertShownRef s;
     isStreamingRef := isStreamingRef s;
     lastFrameTimeRef := lastFrameTimeRef s; isMountedRef := isMountedRef s;
     sockets := sockets s; inflight := inflight s; timeouts := v;
     sent := sent s |}.

Definition set_sent (v : list OutMsg) (s : State) : State :=
  {| analysisActive := analysisActive s; chatHistory := chatHistory s;
     totalPredictions := totalPredictions s;
     currentPrediction := currentPrediction s; status := status s;
     isConnected := isConnected s; streamFPS := streamFPS s;
     facing := facing s; cameraRef := cameraRef s; wsRef := wsRef s;
     frameCountRef := frameCountRef s;
     captureIntervalRef := captureIntervalRef s;
     errorAlertShownRef := errorAlertShownRef s;
     isStreamingRef := isStreamingRef s;
     lastFrameTimeRef := lastFrameTimeRef s; isMountedRef := isMountedRef s;
     sockets := sockets s; inflight := inflight s; timeouts := timeouts s;
     sent := v |}.

(** The state of the first render, before the mount effect runs. *)
Definition initial : State :=
  {| analysisActive := false; chatHistory := []; totalPredictions := 0;
     currentPrediction := None; status := "🔄 Initializing...";
     isConnected := false; streamFPS := 5; facing := front;
     cameraRef := false; wsRef := None; frameCountRef := 0;
     captureIntervalRef := None; errorAlertShownRef := false;
     isStreamingRef := false; lastFrameTimeRef := 0; isMountedRef := true;
     sockets := []; inflight := []; timeouts := []; sent := [] |}.

(** [wsRef.current?.readyState] *)
Definition readyState (s : State) : option ReadyState :=
  match wsRef s with
  | Some i => nth_error (sockets s) i
  | None => None
  end.

(** [wsRef.current && wsRef.current.readyState === WebSocket.OPEN] *)
Definition ws_is_open (s : State) : bool :=
  match readyState s with
  | Some OPEN => true
  | _ => false
  end.

(** [wsRef.current.send(JSON.stringify(m))]; every call site is guarded by
    [ws_is_open]. *)
Definition send (m : OutMsg) (s : State) : State :=
  set_sent (sent s ++ [m]) s.

Definition setTimeout (c : Callback) (ms : Z) (s : State) : State :=
  set_timeouts (timeouts s ++ [mkTimeout c ms]) s.

(** [new WebSocket(WS_SERVER_URL)] stored in [wsRef]; the socket it replaces,
    if any, stays alive with its callbacks. *)
Definition connectWebSocket (s : State) : State :=
  let ws := length (sockets s) in
  let s := set_sockets (sockets s ++ [CONNECTING]) s in
  set_wsRef (Some ws) s.

Definition onopen (s : State) : State :=
  let s := setIsConnected true s in
  setStatus "✅ Connected to AI Server" s.

Definition onclose (s : State) : State :=
  let s := setIsConnected false s in
  let s := setStatus "⚠️ Disconnected - Tap to retry" s in
  setAnalysisActive false s.

Definition onerror (s : State) : State :=
  setStatus "❌ Connection failed" s.

(** [(data.type || data.action || data.msg_type || '').toString().toLowerCase()] *)
Definition msgType (data : Data) : string :=
  toLowerCase
    (toString
       (Js.or (Js.or (Js.or (d_type data) (d_action data)) (d_msg_type data))
              (JStr ""))).

(** The arms of [switch (msgType)]. *)
Inductive Case : Type :=
| case_prediction | case_status | case_ack | case_error | case_default.

Definition switch (t : string) : Case :=
  if String.eqb t "prediction" then case_prediction
  else if String.eqb t "status" then case_status
  else if String.eqb t "ack" then case_ack
  else if String.eqb t "error" then case_error
  else case_default.

Definition handleWebSocketMessage (data : Data) (time : string) (s : State) : State :=
  match switch (msgType data) with
  | case_prediction =>
      let prediction :=
        mkPrediction (d_predicted_class data) (d_confidence data) time in
      let s := setCurrentPrediction (Some prediction) s in
      let s := setChatHistory
                 (slice_last 11 (chatHistory s) ++ [ChatPrediction prediction]) s in
      setTotalPredictions (totalPredictions s + 1) s
  | case_status =>
      let systemMessage := mkSystemMessage (d_message data) time in
      setChatHistory (slice_last 11 (chatHistory s) ++ [ChatSystem systemMessage]) s
  | case_ack => s
  | case_error =>
      let s := setStatus
                 ("❌ " ++ toString (Js.or (d_message data) (JStr "Analysis error"))) s in
      let errMsg :=
        mkSystemMessage (Js.or (d_message data) (JStr "Analysis error")) time in
      let s := setChatHistory (slice_last 11 (chatHistory s) ++ [ChatSystem errMsg]) s in
      if negb (errorAlertShownRef s) then set_errorAlertShownRef true s else s
  | case_default => s
  end.

Definition onmessage (p : Payload) (time : string) (s : State) : State :=
  match p with
  | Malformed => s
  | Parsed data => handleWebSocketMessage data time s
  end.

Definition stopVideoStream (s : State) : State :=
  let s := set_isStreamingRef false s in
  let s := match captureIntervalRef s with
           | Some _ => set_captureIntervalRef None s
           | None => s
           end in
  set_lastFrameTimeRef 0 s.

(** [ws.close()]: an open or opening socket starts closing. *)
Definition close (r : ReadyState) : ReadyState :=
  match r with
  | CONNECTING | OPEN => CLOSING
  | CLOSING => CLOSING
  | CLOSED => CLOSED
  end.

Definition disconnectWebSocket (s : State) : State :=
  let s := match wsRef s with
           | Some i =>
               let s := match nth_error (sockets s) i with
                        | Some r => set_sockets (set_nth i (close r) (sockets s)) s
                        | None => s
                        end in
               set_wsRef None s
           | None => s
           end in
  stopVideoStream s.

(** [const frameInterval = 100 / streamFPS].  The quotient is exact in [Q];
    the source compares it only with whole numbers of milliseconds, for
    which the rounded double decides the same way. *)
Definition frameInterval (streamFPS : Z) : Q := (100 / inject_Z streamFPS)%Q.

Definition Qlt_bool (a b : Q) : bool := negb (Qle_bool b a).

Definition startVideoStream (streamFPS : Z) (s : State) : State :=
  if negb (cameraRef s) || negb (ws_is_open s) then s
  else
    let s := set_isStreamingRef true s in
    let s := set_frameCountRef 0 s in
    let s := set_lastFrameTimeRef 0 s in
    let frameInterval := frameInterval streamFPS in
    set_captureIntervalRef
      (Some (mkInterval streamFPS frameInterval (frameInterval / 2)%Q)) s.

(** [captureFrame] up to its [await]: the guards, [Date.now()], the
    "too soon" test, and the call of [takePictureAsync]. *)
Definition captureFrame_begin (iv : Interval) (now : Z) (s : State) : State :=
  if negb (isMountedRef s) || negb (isStreamingRef s) || negb (cameraRef s) then s
  else if Qlt_bool (inject_Z (now - lastFrameTimeRef s)) (iv_frameInterval iv) then s
  else set_inflight (inflight s ++ [mkInFlight now (iv_streamFPS iv)]) s.

(** [captureFrame] from its [await] on.  A rejection is only logged. *)
Definition captureFrame_resume (c : InFlight) (photo : CaptureResult) (s : State) : State :=
  match photo with
  | Photo base64 width height =>
      if has_base64 photo && ws_is_open s then
        let s := set_frameCountRef (frameCountRef s + 1) s in
        let s := set_lastFrameTimeRef (cap_now c) s in
        let s := send (video_frame base64 (frameCountRef s) (cap_now c) width height) s in
        let s := if Z.eqb (Z.rem (frameCountRef s) 15) 0
                 then setStatus ("🎥 Streaming (" ++ string_of_Z (cap_streamFPS c)
                                 ++ " FPS) - " ++ string_of_Z (frameCountRef s)
                                 ++ " frames") s
                 else s in
        if Z.eqb (Z.rem (frameCountRef s) 10) 0
        then send (ack (frameCountRef s) (cap_streamFPS c)) s
        else s
      else s
  | NoPhoto => s
  | CaptureError => s
  end.

(** [startAnalysis] as the closure of a render in which [isConnected] and
    [streamFPS] had the given values. *)
Definition startAnalysis (isConnected_then : bool) (streamFPS_then : Z) (s : State) : State :=
  if negb isConnected_then then
    let s := connectWebSocket s in
    setTimeout (RetryStartAnalysis isConnected_then streamFPS_then) 1000 s
  else
    let s := setAnalysisActive true s in
    let s := setStatus ("🎥 Starting Video Stream (" ++ string_of_Z streamFPS_then
                        ++ " FPS)...") s in
    let s := setCurrentPrediction None s in
    let s := setTimeout (DelayedStartVideoStream streamFPS_then) 100 s in
    if ws_is_open s
    then send (start_video_stream streamFPS_then 1) s
    else s.

Definition stopAnalysis (s : State) : State :=
  let s := setAnalysisActive false s in
  let s := setStatus "⏸️ Ready for Analysis" s in
  let s := setCurrentPrediction None s in
  let s := stopVideoStream s in
  if ws_is_open s then send stop_video_stream s else s.

Definition fpsOptions : list Z := [3; 5; 8; 10].

(** [toggleStreamFPS] as the closure of a render with the given [streamFPS]
    and [analysisActive]. *)
Definition toggleStreamFPS (streamFPS_then : Z) (analysisActive_then : bool) (s : State) : State :=
  let currentIndex := indexOf streamFPS_then fpsOptions in
  let nextIndex := Z.rem (currentIndex + 1) (Z.of_nat (length fpsOptions)) in
  let newFPS := nth (Z.to_nat nextIndex) fpsOptions 0 in
  let s := setStreamFPS newFPS s in
  if analysisActive_then then
    let s := setStatus ("🔄 Switching to " ++ string_of_Z newFPS ++ " FPS...") s in
    let s := stopVideoStream s in
    setTimeout (RestartVideoStream streamFPS_then newFPS) 200 s
  else s.

Definition toggleCameraFacing (s : State) : State :=
  setFacing (match facing s with back => front | front => back end) s.

Definition clearHistory (s : State) : State :=
  let s := setChatHistory [] s in
  let s := setTotalPredictions 0 s in
  setCurrentPrediction None s.

(** A [setTimeout] callback runs. *)
Definition run_callback (c : Callback) (s : State) : State :=
  match c with
  | RetryStartAnalysis isConnected_then streamFPS_then =>
      startAnalysis isConnected_then streamFPS_then s
  | DelayedStartVideoStream streamFPS_then =>
      startVideoStream streamFPS_then s
  | RestartVideoStream streamFPS_then newFPS =>
      let s := startVideoStream streamFPS_then s in
      setStatus ("🎥 Streaming Video (" ++ string_of_Z newFPS ++ " FPS)...") s
  end.

(** What can happen to the screen.  Socket events name the socket they
    come from; a press is the [onPress] of the button. *)
Inductive Event : Type :=
| Mount
| Unmount
| CameraAttached (present : bool)
| WsOpen (ws : nat)
| WsMessage (ws : nat) (p : Payload) (time : string)
| WsClose (ws : nat)
| WsError (ws : nat)
| PressStart
| PressStop
| PressFps
| PressFlip
| PressClear
| Tick (now : Z)
| CaptureDone (i : nat) (photo : CaptureResult)
| TimeoutFires (i : nat).

(** The handler that one turn of the event loop runs.  An event that
    cannot occur in the state (an unknown socket, a disabled button, a timer
    that is not armed) leaves it as it is.  The start button is disabled
    while [analysisActive], the stop button while not.  The render that
    React performs after the handler, which can throw and unmount the
    screen, is added by [index_turn] below; the unmount it causes is made of
    two events of this function. *)
Definition step (s : State) (e : Event) : State :=
  match e with
  | Mount => connectWebSocket (set_isMountedRef true s)
  | Unmount => disconnectWebSocket (set_isMountedRef false s)
  | CameraAttached present => set_cameraRef present s
  | WsOpen ws =>
      match nth_error (sockets s) ws with
      | Some CONNECTING => onopen (set_sockets (set_nth ws OPEN (sockets s)) s)
      | _ => s
      end
  | WsMessage ws p time =>
      match nth_error (sockets s) ws with
      | Some OPEN | Some CLOSING => onmessage p time s
      | _ => s
      end
  | WsClose ws =>
      match nth_error (sockets s) ws with
      | Some CLOSED | None => s
      | Some _ => onclose (set_sockets (set_nth ws CLOSED (sockets s)) s)
      end
  | WsError ws =>
      match nth_error (sockets s) ws with
      | Some CLOSED | None => s
      | Some _ => onerror s
      end
  | PressStart =>
      if analysisActive s then s
      else startAnalysis (isConnected s) (streamFPS s) s
  | PressStop =>
      if analysisActive s then stopAnalysis s else s
  | PressFps => toggleStreamFPS (streamFPS s) (analysisActive s) s
  | PressFlip => toggleCameraFacing s
  | PressClear => clearHistory s
  | Tick now =>
      match captureIntervalRef s with
      | Some iv => captureFrame_begin iv now s
      | None => s
      end
  | CaptureDone i photo =>
      match nth_error (inflight s) i with
      | Some c => captureFrame_resume c photo (set_inflight (remove_nth i (inflight s)) s)
      | None => s
      end
  | TimeoutFires i =>
      match nth_error (timeouts s) i with
      | Some t => run_callback (callback t) (set_timeouts (remove_nth i (timeouts s)) s)
      | None => s
      end
  end.

Definition run (s : State) (es : list Event) : State := fold_left step es s.

(** The states the screen can be in. *)
Inductive reachable : State -> Prop :=
| reachable_initial : reachable initial
| reachable_step (s : State) (e : Event) : reachable s -> reachable (step s e).

(** *** Observations used to state the properties *)

(** The messages received in a row, each with the clock reading taken when
    it is handled. *)
Definition receive (arrivals : list (Data * string)) (s : State) : State :=
  fold_left (fun s m => handleWebSocketMessage (fst m) (snd m) s) arrivals s.

(** The history entry that an inbound message gives rise to, if any. *)
Definition entry (m : Data * string) : list ChatMessage :=
  let (data, time) := m in
  match switch (msgType data) with
  | case_prediction =>
      [ChatPrediction (mkPrediction (d_predicted_class data) (d_confidence data) time)]
  | case_status => [ChatSystem (mkSystemMessage (d_message data) time)]
  | case_error =>
      [ChatSystem (mkSystemMessage (Js.or (d_message data) (JStr "Analysis error")) time)]
  | case_ack | case_default => []
  end.

(** The history entries that an event appends: those of the message it
    delivers, if it delivers one. *)
Definition appends (s : State) (e : Event) : list ChatMessage :=
  match e with
  | WsMessage ws (Parsed data) time =>
      match nth_error (sockets s) ws with
      | Some OPEN | Some CLOSING => entry (data, time)
      | _ => []
      end
  | _ => []
  end.

(** The entries appended along a run, in the order of their arrival. *)
Fixpoint appended (s : State) (es : list Event) : list ChatMessage :=
  match es with
  | [] => []
  | e :: rest => appends s e ++ appended (step s e) rest
  end.

(** The session state of the specification: the analysis flag, the target
    rate, the frame counter, the current prediction and the history. *)
Definition session (s : State)
  : bool * Z * Z * option Prediction * list ChatMessage :=
  (analysisActive s, streamFPS s, frameCountRef s, currentPrediction s, chatHistory s).

(** The session is idle: analysis is off and the frame scheduler is not
    running. *)
Definition idle (s : State) : Prop :=
  analysisActive s = false /\ isStreamingRef s = false /\ captureIntervalRef s = None.

Definition is_ack (m : OutMsg) : bool :=
  match m with
  | ack _ _ => true
  | _ => false
  end.

(** The first value among [data.type], [data.action], [data.msg_type] that
    is truthy. *)
Definition discriminator (data : Data) : option jsval :=
  if truthy (d_type data) then Some (d_type data)
  else if truthy (d_action data) then Some (d_action data)
  else if truthy (d_msg_type data) then Some (d_msg_type data)
  else None.

End Index.

(** ** The modal screen, [src/app/modal.tsx] *)

Module Modal.

(** The messages the screen sends on the socket. *)
Inductive OutMsg : Type :=
| frame (base64 : string)
| ack (frame_count : Z)
| start (predict_every_frames : Z)
| stop.

(** [setTimeout(startAnalysis, 1000)], with the [isConnected] of the render
    that created the callback. *)
Inductive Callback : Type :=
| RetryStartAnalysis (isConnected_then : bool).

Record Timeout : Type := mkTimeout {
  callback : Callback;
  delay_ms : Z
}.

(** The [useState] cells, the [useRef] cells, and the environment: the
    sockets created so far, the ids of the repeating timers that are armed,
    the next timer id, the number of captures in flight, the pending
    timeouts, the alerts shown and the messages transmitted (oldest first). *)
Record State : Type := mkState {
  analysisActive : bool;
  chatHistory : list ChatMessage;
  totalPredictions : Z;
  currentPrediction : option Prediction;
  status : string;
  isConnected : bool;
  facing : CameraType;
  cameraRef : bool;
  wsRef : option nat;
  frameCountRef : Z;
  captureIntervalRef : option nat;
  sockets : list ReadyState;
  intervals : list nat;
  nextTimerId : nat;
  inflight : nat;
  timeouts : list Timeout;
  alerts : list (string * jsval);
  sent : list OutMsg
}.

Definition setAnalysisActive (v : bool) (s : State) : State :=
  {| analysisActive := v; chatHistory := chatHistory s;
     totalPredictions := totalPredictions s;
     currentPrediction := currentPrediction s; status := status s;
     isConnected := isConnected s; facing := facing s;
     cameraRef := cameraRef s; wsRef := wsRef s;
     frameCountRef := frameCountRef s;
     captureIntervalRef := captureIntervalRef s; sockets := sockets s;
     intervals := intervals s; nextTimerId := nextTimerId s;
     inflight := inflight s; timeouts := timeouts s; alerts := alerts s;
     sent := sent s |}.

Definition setChatHistory (v : list ChatMessage) (s : State) : State :=
  {| analysisActive := analysisActive s; chatHistory := v;
     totalPredictions := totalPredictions s;
     currentPrediction := currentPrediction s; status := status s;
     isConnected := isConnected s; facing := facing s;
     cameraRef := cameraRef s; wsRef := wsRef s;
     frameCountRef := frameCountRef s;
     captureIntervalRef := captureIntervalRef s; sockets := sockets s;
     intervals := intervals s; nextTimerId := nextTimerId s;
     inflight := inflight s; timeouts := timeouts s; alerts := alerts s;
     sent := sent s |}.

Definition setTotalPredictions (v : Z) (s : State) : State :=
  {| analysisActive := analysisActive s; chatHistory := chatHistory s;
     totalPredictions := v; currentPrediction := currentPrediction s;
     status := status s; isConnected := isConnected s; facing := facing s;
     cameraRef := cameraRef s; wsRef := wsRef s;
     frameCountRef := frameCountRef s;
     captureIntervalRef := captureIntervalRef s; sockets := sockets s;
     intervals := intervals s; nextTimerId := nextTimerId s;
     inflight := inflight s; timeouts := timeouts s; alerts := alerts s;
     sent := sent s |}.

Definition setCurrentPrediction (v : option Prediction) (s : State) : State :=
  {| analysisActive := analysisActive s; chatHistory := chatHistory s;
     totalPredictions := totalPredictions s; currentPrediction := v;
     status := status s; isConnected := isConnected s; facing := facing s;
     cameraRef := cameraRef s; wsRef := wsRef s;
     frameCountRef := frameCountRef s;
     captureIntervalRef := captureIntervalRef s; sockets := sockets s;
     intervals := intervals s; nextTimerId := nextTimerId s;
     inflight := inflight s; timeouts := timeouts s; alerts := alerts s;
     sent := sent s |}.

Definition setStatus (v : string) (s : State) : State :=
  {| analysisActive := analysisActive s; chatHistory := chatHistory s;
     totalPredictions := totalPredictions s;
     currentPrediction := currentPrediction s; status := v;
     isConnected := isConnected s; facing := facing s;
     cameraRef := cameraRef s; wsRef := wsRef s;
     frameCountRef := frameCountRef s;
     captureIntervalRef := captureIntervalRef s; sockets := sockets s;
     intervals := intervals s; nextTimerId := nextTimerId s;
     inflight := inflight s; timeouts := timeouts s; alerts := alerts s;
     sent := sent s |}.

Definition setIsConnected (v : bool) (s : State) : State :=
  {| analysisActive := analysisActive s; chatHistory := chatHistory s;
     totalPredictions := totalPredictions s;
     currentPrediction := currentPrediction s; status := status s;
     isConnected := v; facing := facing s; cameraRef := cameraRef s;
     wsRef := wsRef s; frameCountRef := frameCountRef s;
     captureIntervalRef := captureIntervalRef s; sockets := sockets s;
     intervals := intervals s; nextTimerId := nextTimerId s;
     inflight := inflight s; timeouts := timeouts s; alerts := alerts s;
     sent := sent s |}.

Definition setFacing (v : CameraType) (s : State) : State :=
  {| analysisActive := analysisActive s; chatHistory := chatHistory s;
     totalPredictions := totalPredictions s;
     currentPrediction := currentPrediction s; status := status s;
     isConnected := isConnected s; facing := v; cameraRef := cameraRef s;
     wsRef := wsRef s; frameCountRef := frameCountRef s;
     captureIntervalRef := captureIntervalRef s; sockets := sockets s;
     intervals := intervals s; nextTimerId := nextTimerId s;
     inflight := inflight s; timeouts := timeouts s; alerts := alerts s;
     sent := sent s |}.

Definition set_cameraRef (v : bool) (s : State) : State :=
  {| analysisActive := analysisActive s; chatHistory := chatHistory s;
     totalPredictions := totalPredictions s;
     currentPrediction := currentPrediction s; status := status s;
     isConnected := isConnected s; facing := facing s; cameraRef := v;
     wsRef := wsRef s; frameCountRef := frameCountRef s;
     captureIntervalRef := captureIntervalRef s; sockets := sockets s;
     intervals := intervals s; nextTimerId := nextTimerId s;
     inflight := inflight s; timeouts := timeouts s; alerts := alerts s;
     sent := sent s |}.

Definition set_wsRef (v : option nat) (s : State) : State :=
  {| analysisActive := analysisActive s; chatHistory := chatHistory s;
     totalPredictions := totalPredictions s;
     currentPrediction := currentPrediction s; status := status s;
     isConnected := isConnected s; facing := facing s;
     cameraRef := cameraRef s; wsRef := v; frameCountRef := frameCountRef s;
     captureIntervalRef := captureIntervalRef s; sockets := sockets s;
     intervals := intervals s; nextTimerId := nextTimerId s;
     inflight := inflight s; timeouts := timeouts s; alerts := alerts s;
     sent := sent s |}.

Definition set_frameCountRef (v : Z) (s : State) : State :=
  {| analysisActive := analysisActive s; chatHistory := chatHistory s;
     totalPredictions := totalPredictions s;
     currentPrediction := currentPrediction s; status := status s;
     isConnected := isConnected s; facing := facing s;
     cameraRef := cameraRef s; wsRef := wsRef s; frameCountRef := v;
     captureIntervalRef := captureIntervalRef s; sockets := sockets s;
     intervals := intervals s; nextTimerId := nextTimerId s;
     inflight := inflight s; timeouts := timeouts s; alerts := alerts s;
     sent := sent s |}.

Definition set_captureIntervalRef (v : option nat) (s : State) : State :=
  {| analysisActive := analysisActive s; chatHistory := chatHistory s;
     totalPredictions := totalPredictions s;
     currentPrediction := currentPrediction s; status := status s;
     isConnected := isConnected s; facing := facing s;
     cameraRef := cameraRef s; wsRef := wsRef s;
     frameCountRef := frameCountRef s; captureIntervalRef := v;
     sockets := sockets s; intervals := intervals s;
     nextTimerId := nextTimerId s; inflight := inflight s;
     timeouts := timeouts s; alerts := alerts s; sent := sent s |}.

Definition set_sockets (v : list ReadyState) (s : State) : State :=
  {| analysisActive := analysisActive s; chatHistory := chatHistory s;
     totalPredictions := totalPredictions s;
     currentPrediction := currentPrediction s; status := status s;
     isConnected := isConnected s; facing := facing s;
     cameraRef := cameraRef s; wsRef := wsRef s;
     frameCountRef := frameCountRef s;
     captureIntervalRef := captureIntervalRef s; sockets := v;
     intervals := intervals s; nextTimerId := nextTimerId s;
     inflight := inflight s; timeouts := timeouts s; alerts := alerts s;
     sent := sent s |}.

Definition set_intervals (v : list nat) (s : State) : State :=
  {| analysisActive := analysisActive s; chatHistory := chatHistory s;
     totalPredictions := totalPredictions s;
     currentPrediction := currentPrediction s; status := status s;
     isConnected := isConnected s; facing := facing s;
     cameraRef := cameraRef s; wsRef := wsRef s;
     frameCountRef := frameCountRef s;
     captureIntervalRef := captureIntervalRef s; sockets := sockets s;
     intervals := v; nextTimerId := nextTimerId s; inflight := inflight s;
     timeouts := timeouts s; alerts := alerts s; sent := sent s |}.

Definition set_nextTimerId (v : nat) (s : State) : State :=
  {| analysisActive := analysisActive s; chatHistory := chatHistory s;
     totalPredictions := totalPredictions s;
     currentPrediction := currentPrediction s; status := status s;
     isConnected := isConnected s; facing := facing s;
     cameraRef := cameraRef s; wsRef := wsRef s;
     frameCountRef := frameCountRef s;
     captureIntervalRef := captureIntervalRef s; sockets := sockets s;
     intervals := intervals s; nextTimerId := v; inflight := inflight s;
     timeouts := timeouts s; alerts := alerts s; sent := sent s |}.

Definition set_inflight (v : nat) (s : State) : State :=
  {| analysisActive := analysisActive s; chatHistory := chatHistory s;
     totalPredictions := totalPredictions s;
     currentPrediction := currentPrediction s; status := status s;
     isConnected := isConnected s; facing := facing s;
     cameraRef := cameraRef s; wsRef := wsRef s;
     frameCountRef := frameCountRef s;
     captureIntervalRef := captureIntervalRef s; sockets := sockets s;
     intervals := intervals s; nextTimerId := nextTimerId s; inflight := v;
     timeouts := timeouts s; alerts := alerts s; sent := sent s |}.

Definition set_timeouts (v : list Timeout) (s : State) : State :=
  {| analysisActive := analysisActive s; chatHistory := chatHistory s;
     totalPredictions := totalPredictions s;
     currentPrediction := currentPrediction s; status := status s;
     isConnected := isConnected s; facing := facing s;
     cameraRef := cameraRef s; wsRef := wsRef s;
     frameCountRef := frameCountRef s;
     captureIntervalRef := captureIntervalRef s; sockets := sockets s;
     intervals := intervals s; nextTimerId := nextTimerId s;
     inflight := inflight s; timeouts := v; alerts := alerts s;
     sent := sent s |}.

Definition set_alerts (v : list (string * jsval)) (s : State) : State :=
  {| analysisActive := analysisActive s; chatHistory := chatHistory s;
     totalPredictions := totalPredictions s;
     currentPrediction := currentPrediction s; status := status s;
     isConnected := isConnected s; facing := facing s;
     cameraRef := cameraRef s; wsRef := wsRef s;
     frameCountRef := frameCountRef s;
     captureIntervalRef := captureIntervalRef s; sockets := sockets s;
     intervals := intervals s; nextTimerId := nextTimerId s;
     inflight := inflight s; timeouts := timeouts s; alerts := v;
     sent := sent s |}.

Definition set_sent (v : list OutMsg) (s : State) : State :=
  {| analysisActive := analysisActive s; chatHistory := chatHistory s;
     totalPredictions := totalPredictions s;
     currentPrediction := currentPrediction s; status := status s;
     isConnected := isConnected s; facing := facing s;
     cameraRef := cameraRef s; wsRef := wsRef s;
     frameCountRef := frameCountRef s;
     captureIntervalRef := captureIntervalRef s; sockets := sockets s;
     intervals := intervals s; nextTimerId := nextTimerId s;
     inflight := inflight s; timeouts := timeouts s; alerts := alerts s;
     sent := v |}.

Definition initial : State :=
  {| analysisActive := false; chatHistory := []; totalPredictions := 0;
     currentPrediction := None; status := "🔄 Initializing...";
     isConnected := false; facing := front; cameraRef := false;
     wsRef := None; frameCountRef := 0; captureIntervalRef := None;
     sockets := []; intervals := []; nextTimerId := 1; inflight := 0;
     timeouts := []; alerts := []; sent := [] |}.

Definition readyState (s : State) : option ReadyState :=
  match wsRef s with
  | Some i => nth_error (sockets s) i
  | None => None
  end.

Definition ws_is_open (s : State) : bool :=
  match readyState s with
  | Some OPEN => true
  | _ => false
  end.

(** An open socket transmits the message. *)
Definition transmit (m : OutMsg) (s : State) : State :=
  set_sent (sent s ++ [m]) s.

(** [wsRef.current.send(...)] where no guard precedes it.  [None] is an
    exception: [wsRef.current] is [null], or the socket is still connecting.
    On a closing or closed socket the data is discarded. *)
Definition send (m : OutMsg) (s : State) : option State :=
  match readyState s with
  | None => None
  | Some CONNECTING => None
  | Some OPEN => Some (transmit m s)
  | Some CLOSING | Some CLOSED => Some s
  end.

Definition setTimeout (c : Callback) (ms : Z) (s : State) : State :=
  set_timeouts (timeouts s ++ [mkTimeout c ms]) s.

(** [setInterval(captureFrame, 500)]: arms a new timer and returns its id. *)
Definition setInterval (s : State) : nat * State :=
  let id := nextTimerId s in
  (id, set_nextTimerId (S id) (set_intervals (intervals s ++ [id]) s)).

Definition clearInterval (id : nat) (s : State) : State :=
  set_intervals (filter (fun j => negb (Nat.eqb j id)) (intervals s)) s.

Definition connectWebSocket (s : State) : State :=
  let ws := length (sockets s) in
  let s := set_sockets (sockets s ++ [CONNECTING]) s in
  set_wsRef (Some ws) s.

Definition onopen (s : State) : State :=
  let s := setIsConnected true s in
  setStatus "✅ Connected to AI Server" s.

Definition onclose (s : State) : State :=
  let s := setIsConnected false s in
  let s := setStatus "⚠️ Disconnected - Tap to retry" s in
  setAnalysisActive false s.

Definition onerror (s : State) : State :=
  setStatus "❌ Connection failed" s.

(** The arms of [switch (data.type)]; the comparison is [===]. *)
Inductive Case : Type :=
| case_prediction | case_status | case_error | case_default.

Definition switch (v : jsval) : Case :=
  match v with
  | JStr t =>
      if String.eqb t "prediction" then case_prediction
      else if String.eqb t "status" then case_status
      else if String.eqb t "error" then case_error
      else case_default
  | _ => case_default
  end.

Definition handleWebSocketMessage (data : Data) (time : string) (s : State) : State :=
  match switch (d_type data) with
  | case_prediction =>
      let prediction :=
        mkPrediction (d_predicted_class data) (d_confidence data) time in
      let s := setCurrentPrediction (Some prediction) s in
      let s := setChatHistory
                 (slice_last 11 (chatHistory s) ++ [ChatPrediction prediction]) s in
      setTotalPredictions (totalPredictions s + 1) s
  | case_status =>
      let s := setStatus ("🔍 " ++ toString (d_message data)) s in
      let systemMessage := mkSystemMessage (d_message data) time in
      setChatHistory (slice_last 11 (chatHistory s) ++ [ChatSystem systemMessage]) s
  | case_error =>
      let s := setStatus ("❌ " ++ toString (d_message data)) s in
      set_alerts (alerts s ++ [("Analysis Error", d_message data)]) s
  | case_default => s
  end.

Definition onmessage (p : Payload) (time : string) (s : State) : State :=
  match p with
  | Malformed => s
  | Parsed data => handleWebSocketMessage data time s
  end.

Definition close (r : ReadyState) : ReadyState :=
  match r with
  | CONNECTING | OPEN => CLOSING
  | CLOSING => CLOSING
  | CLOSED => CLOSED
  end.

Definition disconnectWebSocket (s : State) : State :=
  let s := match wsRef s with
           | Some i =>
               let s := match nth_error (sockets s) i with
                        | Some r => set_sockets (set_nth i (close r) (sockets s)) s
                        | None => s
                        end in
               set_wsRef None s
           | None => s
           end in
  match captureIntervalRef s with
  | Some id => set_captureIntervalRef None (clearInterval id s)
  | None => s
  end.

(** [captureFrame] up to its [await]. *)
Definition captureFrame_begin (s : State) : State :=
  if negb (cameraRef s) || negb (ws_is_open s) then s
  else set_inflight (S (inflight s)) s.

(** [captureFrame] from its [await] on.  An exception of [send] leaves the
    [try] block; the [catch] only logs. *)
Definition captureFrame_resume (photo : CaptureResult) (s : State) : State :=
  match photo with
  | Photo base64 _ _ =>
      if has_base64 photo then
        let s := set_frameCountRef (frameCountRef s + 1) s in
        match send (frame base64) s with
        | None => s
        | Some s =>
            if Z.eqb (Z.rem (frameCountRef s) 5) 0 then
              match send (ack (frameCountRef s)) s with
              | None => s
              | Some s => s
              end
            else s
        end
      else s
  | NoPhoto => s
  | CaptureError => s
  end.

(** [startAnalysis] as the closure of a render in which [isConnected] had
    the given value. *)
Definition startAnalysis (isConnected_then : bool) (s : State) : State :=
  if negb isConnected_then then
    let s := connectWebSocket s in
    setTimeout (RetryStartAnalysis isConnected_then) 1000 s
  else
    let s := setAnalysisActive true s in
    let s := setStatus "🔍 Analyzing Live Video..." s in
    let s := setCurrentPrediction None s in
    let (id, s) := setInterval s in
    let s := set_captureIntervalRef (Some id) s in
    if ws_is_open s then transmit (start 1) s else s.

Definition stopAnalysis (s : State) : State :=
  let s := setAnalysisActive false s in
  let s := setStatus "⏸️ Ready for Analysis" s in
  let s := setCurrentPrediction None s in
  let s := match captureIntervalRef s with
           | Some id => set_captureIntervalRef None (clearInterval id s)
           | None => s
           end in
  if ws_is_open s then transmit stop s else s.

Definition toggleCameraFacing (s : State) : State :=
  setFacing (match facing s with back => front | front => back end) s.

Definition clearHistory (s : State) : State :=
  let s := setChatHistory [] s in
  let s := setTotalPredictions 0 s in
  setCurrentPrediction None s.

Definition run_callback (c : Callback) (s : State) : State :=
  match c with
  | RetryStartAnalysis isConnected_then => startAnalysis isConnected_then s
  end.

Inductive Event : Type :=
| Mount
| Unmount
| CameraAttached (present : bool)
| WsOpen (ws : nat)
| WsMessage (ws : nat) (p : Payload) (time : string)
| WsClose (ws : nat)
| WsError (ws : nat)
| PressStart
| PressStop
| PressFlip
| PressClear
| Tick (timer : nat)
| CaptureDone (photo : CaptureResult)
| TimeoutFires (i : nat).

(** The handler that one turn of the event loop runs; an event that
    cannot occur in the state leaves it as it is.  The render that follows
    the handler is added by [modal_turn] below. *)
Definition step (s : State) (e : Event) : State :=
  match e with
  | Mount => connectWebSocket s
  | Unmount => disconnectWebSocket s
  | CameraAttached present => set_cameraRef present s
  | WsOpen ws =>
      match nth_error (sockets s) ws with
      | Some CONNECTING => onopen (set_sockets (set_nth ws OPEN (sockets s)) s)
      | _ => s
      end
  | WsMessage ws p time =>
      match nth_error (sockets s) ws with
      | Some OPEN | Some CLOSING => onmessage p time s
      | _ => s
      end
  | WsClose ws =>
      match nth_error (sockets s) ws with
      | Some CLOSED | None => s
      | Some _ => onclose (set_sockets (set_nth ws CLOSED (sockets s)) s)
      end
  | WsError ws =>
      match nth_error (sockets s) ws with
      | Some CLOSED | None => s
      | Some _ => onerror s
      end
  | PressStart =>
      if analysisActive s then s else startAnalysis (isConnected s) s
  | PressStop =>
      if analysisActive s then stopAnalysis s else s
  | PressFlip => toggleCameraFacing s
  | PressClear => clearHistory s
  | Tick timer =>
      if existsb (Nat.eqb timer) (intervals s) then captureFrame_begin s else s
  | CaptureDone photo =>
      match inflight s with
      | S n => captureFrame_resume photo (set_inflight n s)
      | O => s
      end
  | TimeoutFires i =>
      match nth_error (timeouts s) i with
      | Some t => run_callback (callback t) (set_timeouts (remove_nth i (timeouts s)) s)
      | None => s
      end
  end.

Definition run (s : State) (es : list Event) : State := fold_left step es s.

Inductive reachable : State -> Prop :=
| reachable_initial : reachable initial
| reachable_step (s : State) (e : Event) : reachable s -> reachable (step s e).

(** *** Observations used to state the properties *)

Definition receive (arrivals : list (Data * string)) (s : State) : State :=
  fold_left (fun s m => handleWebSocketMessage (fst m) (snd m) s) arrivals s.

(** The history entry that an inbound message gives rise to, if any. *)
Definition entry (m : Data * string) : list ChatMessage :=
  let (data, time) := m in
  match switch (d_type data) with
  | case_prediction =>
      [ChatPrediction (mkPrediction (d_predicted_class data) (d_confidence data) time)]
  | case_status => [ChatSystem (mkSystemMessage (d_message data) time)]
  | case_error | case_default => []
  end.

Definition appends (s : State) (e : Event) : list ChatMessage :=
  match e with
  | WsMessage ws (Parsed data) time =>
      match nth_error (sockets s) ws with
      | Some OPEN | Some CLOSING => entry (data, time)
      | _ => []
      end
  | _ => []
  end.

Fixpoint appended (s : State) (es : list Event) : list ChatMessage :=
  match es with
  | [] => []
  | e :: rest => appends s e ++ appended (step s e) rest
  end.

Definition is_ack (m : OutMsg) : bool :=
  match m with
  | ack _ => true
  | _ => false
  end.

End Modal.

(** ** Concrete sessions used as examples *)

Module Scenario.

Definition prediction_msg (label : string) : Data :=
  mkData (JStr "prediction") JUndefined JUndefined
         (JStr label) (JFloat "0.93") JUndefined JUndefined.

Definition status_msg (text : string) : Data :=
  mkData (JStr "status") JUndefined JUndefined
         JUndefined JUndefined (JStr text) JUndefined.

Definition error_msg (text : string) : Data :=
  mkData (JStr "error") JUndefined JUndefined
         JUndefined JUndefined (JStr text) JUndefined.

(** [{"action": "prediction", ...}]: the discriminator is in [action]. *)
Definition action_prediction_msg (label : string) : Data :=
  mkData JUndefined (JStr "prediction") JUndefined
         (JStr label) (JFloat "0.93") JUndefined JUndefined.

(** [{"msg_type": "Status", ...}] *)
Definition msg_type_status_msg (text : string) : Data :=
  mkData JUndefined JUndefined (JStr "Status")
         JUndefined JUndefined (JStr text) JUndefined.

(** [{"type": "PREDICTION", ...}] *)
Definition upper_prediction_msg (label : string) : Data :=
  mkData (JStr "PREDICTION") JUndefined JUndefined
         (JStr label) (JFloat "0.93") JUndefined JUndefined.

(** [{"action": "ack", "frame_count": 10}] *)
Definition ack_msg : Data :=
  mkData JUndefined (JStr "ack") JUndefined
         JUndefined JUndefined JUndefined (JInt 10).

Definition photo : CaptureResult := Photo "AAAA" 640 480.

(** Thirteen inbound messages: predictions with alternating labels, one
    status notice and one error in between. *)
Definition thirteen : list (Data * string) :=
  [ (prediction_msg "cavity", "10:00:01"); (prediction_msg "healthy", "10:00:02");
    (prediction_msg "cavity", "10:00:03"); (status_msg "warming up", "10:00:04");
    (prediction_msg "healthy", "10:00:05"); (prediction_msg "cavity", "10:00:06");
    (error_msg "model unavailable", "10:00:07"); (prediction_msg "healthy", "10:00:08");
    (prediction_msg "cavity", "10:00:09"); (prediction_msg "healthy", "10:00:10");
    (prediction_msg "cavity", "10:00:11"); (prediction_msg "healthy", "10:00:12");
    (prediction_msg "cavity", "10:00:13") ].

(** The main screen, mounted, camera attached, socket open: the user
    presses start and the delayed [startVideoStream] runs. *)
Definition index_connected : Index.State :=
  Index.run Index.initial [Index.Mount; Index.CameraAttached true; Index.WsOpen 0].

Definition index_streaming : Index.State :=
  Index.run index_connected [Index.PressStart; Index.TimeoutFires 0].

(** A first frame is captured and sent at [t = 1000] ms. *)
Definition index_one_frame : Index.State :=
  Index.run index_streaming [Index.Tick 1000; Index.CaptureDone 0 photo].

(** The main screen connected and idle; the server sends a prediction. *)
Definition index_idle_with_prediction : Index.State :=
  Index.run Index.initial
    [Index.Mount; Index.WsOpen 0;
     Index.WsMessage 0 (Parsed (prediction_msg "cavity")) "10:00:01"].

(** The modal screen streaming. *)
Definition modal_streaming : Modal.State :=
  Modal.run Modal.initial
    [Modal.Mount; Modal.CameraAttached true; Modal.WsOpen 0; Modal.PressStart].

Definition modal_capture : list Modal.Event := [Modal.Tick 1; Modal.CaptureDone photo].

(** Four frames captured and sent on the modal screen. *)
Definition modal_four_frames : Modal.State :=
  Modal.run modal_streaming
    (modal_capture ++ modal_capture ++ modal_capture ++ modal_capture).

(** A streaming session of the main screen in which the thirteen messages
    arrive between ticks, captures and a change of camera. *)
Definition index_busy_run : list Index.Event :=
  flat_map (fun m => [Index.Tick 1000; Index.WsMessage 0 (Parsed (fst m)) (snd m);
                      Index.PressFlip])
           thirteen.

Definition modal_busy_run : list Modal.Event :=
  flat_map (fun m => [Modal.Tick 1; Modal.WsMessage 0 (Parsed (fst m)) (snd m);
                      Modal.CaptureDone photo])
           (thirteen ++ thirteen).

(** The user stops the modal screen after four frames and starts again. *)
Definition modal_stopped : Modal.State :=
  Modal.step modal_four_frames Modal.PressStop.

Definition modal_restarted : Modal.State :=
  Modal.step modal_stopped Modal.PressStart.

(** The server reports an error to the streaming modal screen. *)
Definition modal_error_received : Modal.State :=
  Modal.step modal_streaming
    (Modal.WsMessage 0 (Parsed (error_msg "model unavailable")) "10:00:07").

(** The socket of the streaming main screen closes. *)
Definition index_closed : Index.State :=
  Index.step index_streaming (Index.WsClose 0).

(** After the closure the user presses start, which opens a second socket;
    it connects, the timer of the old scheduler fires and its capture
    completes. *)
Definition index_reconnected : Index.State :=
  Index.run index_closed
    [Index.PressStart; Index.WsOpen 1; Index.Tick 1000; Index.CaptureDone 0 photo].

End Scenario.

(** ** Rendering helpers, [formatClassName] of both screens and the label
    of [src/app/(tabs)/two.tsx] *)

Module Render.

Definition underscore : ascii := "_"%char.

(** [\w]: a letter, a digit or the underscore. *)
Definition is_word (c : ascii) : bool :=
  let n := nat_of_ascii c in
  ((48 <=? n) && (n <=? 57) || (65 <=? n) && (n <=? 90) ||
   (n =? 95) || (97 <=? n) && (n <=? 122))%nat.

(** [\s] on ASCII: tab, line feed, vertical tab, form feed, carriage
    return and space. *)
Definition is_space (c : ascii) : bool :=
  let n := nat_of_ascii c in
  ((9 <=? n) && (n <=? 13) || (n =? 32))%nat.

Definition upper_ascii (c : ascii) : ascii :=
  let n := nat_of_ascii c in
  if ((97 <=? n) && (n <=? 122))%nat then ascii_of_nat (n - 32) else c.

(** [.replace(/_/g, ' ')] *)
Fixpoint replace_underscores (s : string) : string :=
  match s with
  | EmptyString => EmptyString
  | String c rest =>
      String (if Ascii.eqb c underscore then " "%char else c) (replace_underscores rest)
  end.

(** [.replace(/\w\S*/g, txt => txt.charAt(0).toUpperCase() +
    txt.slice(1).toLowerCase())], run as a scanner from left to right.
    Outside a match a word character starts one and is uppercased, any
    other character is copied; inside a match every character that is not
    white space belongs to it and is lowercased, and white space ends it. *)
Fixpoint capitalize_words (inside : bool) (s : string) : string :=
  match s with
  | EmptyString => EmptyString
  | String c rest =>
      if inside then
        if is_space c then String c (capitalize_words false rest)
        else String (lower_ascii c) (capitalize_words true rest)
      else
        if is_word c then String (upper_ascii c) (capitalize_words true rest)
        else String c (capitalize_words false rest)
  end.

Definition formatClassName (className : string) : string :=
  capitalize_words false (replace_underscores className).

(** The string contains an underscore. *)
Fixpoint has_underscore (s : string) : bool :=
  match s with
  | EmptyString => false
  | String c rest => Ascii.eqb c underscore || has_underscore rest
  end.

End Render.

(** ** Further observations *)

(** The number of predictions among the entries of a history. *)
Fixpoint count_predictions (h : list ChatMessage) : Z :=
  match h with
  | [] => 0
  | ChatPrediction _ :: rest => 1 + count_predictions rest
  | ChatSystem _ :: rest => count_predictions rest
  end.

(** A message of the main screen is well numbered: a frame carries a
    frame number of at least 1, an acknowledgement a positive multiple of
    10. *)
Definition index_well_numbered (m : Index.OutMsg) : Prop :=
  match m with
  | Index.video_frame _ n _ _ _ => 1 <= n
  | Index.ack n _ => 10 <= n /\ Z.rem n 10 = 0
  | _ => True
  end.

(** On the modal screen an acknowledgement carries a positive multiple of
    5. *)
Definition modal_well_numbered (m : Modal.OutMsg) : Prop :=
  match m with
  | Modal.ack n => 5 <= n /\ Z.rem n 5 = 0
  | _ => True
  end.

(** A pending retry of [startAnalysis] was created by a render in which
    [isConnected] was false. *)
Definition index_retry_disconnected (t : Index.Timeout) : Prop :=
  match Index.callback t with
  | Index.RetryStartAnalysis isConnected_then _ => isConnected_then = false
  | _ => True
  end.

Definition modal_retry_disconnected (t : Modal.Timeout) : Prop :=
  match Modal.callback t with
  | Modal.RetryStartAnalysis isConnected_then => isConnected_then = false
  end.

(** The rate that follows a rate in the cycle of [toggleStreamFPS]. *)
Definition next_fps (fps : Z) : Z :=
  if Z.eqb fps 3 then 5
  else if Z.eqb fps 5 then 8
  else if Z.eqb fps 8 then 10
  else 3.

(** [captureIntervalRef.current] as a condition. *)
Definition index_timer_armed (s : Index.State) : bool :=
  match Index.captureIntervalRef s with
  | Some _ => true
  | None => false
  end.

(** The rate that a [setTimeout] callback captured. *)
Definition index_callback_rate (c : Index.Callback) : Z :=
  match c with
  | Index.RetryStartAnalysis _ fps => fps
  | Index.DelayedStartVideoStream fps => fps
  | Index.RestartVideoStream fps _ => fps
  end.

(** A message announces a rate of the list of options, if it announces
    one. *)
Definition index_rate_announced (m : Index.OutMsg) : Prop :=
  match m with
  | Index.ack _ fps => In fps Index.fpsOptions
  | Index.start_video_stream fps _ => In fps Index.fpsOptions
  | _ => True
  end.

(** A capture timer as [startVideoStream] arms it for one of the options. *)
Definition index_timer_wellformed (iv : Index.Interval) : Prop :=
  In (Index.iv_streamFPS iv) Index.fpsOptions /\
  Index.iv_frameInterval iv = Index.frameInterval (Index.iv_streamFPS iv) /\
  Index.iv_delay iv = (Index.frameInterval (Index.iv_streamFPS iv) / 2)%Q.

(** Every rate held anywhere in the state is one of the options. *)
Definition index_rates_ok (s : Index.State) : Prop :=
  In (Index.streamFPS s) Index.fpsOptions /\
  Forall (fun t => In (index_callback_rate (Index.callback t)) Index.fpsOptions)
         (Index.timeouts s) /\
  match Index.captureIntervalRef s with
  | Some iv => index_timer_wellformed iv
  | None => True
  end /\
  Forall (fun c => In (Index.cap_streamFPS c) Index.fpsOptions) (Index.inflight s) /\
  Forall index_rate_announced (Index.sent s).

(** ** The render that follows a handler

    A handler that sets a state cell makes React render the component again
    before the next event is handled.  Once the camera permission is granted
    both screens return the same main view: it calls [formatClassName] on
    the class of the current prediction and of every prediction of the
    history, and places the [message] of every system notice as the child
    of a [Text].  A render that throws makes React unmount the screen: the
    ref of the camera view is detached and the cleanup of the mount effect
    runs.  What the native side does with a style value is not part of the
    render. *)

Module View.





End View.









(** ** Further sessions used as examples *)

Module Session.

(** The main screen streams at 5 FPS and the user presses the rate button;
    200 ms later the restart runs. *)
Definition index_rate_pressed : Index.State :=
  Index.step Scenario.index_streaming Index.PressFps.

(** The main screen is mounted with its camera but the socket has not
    opened; the user presses start, which schedules a retry. *)
Definition index_waiting : Index.State :=
  Index.run Index.initial [Index.Mount; Index.CameraAttached true; Index.PressStart].

(** Meanwhile the first socket opens. *)
Definition index_waiting_connected : Index.State :=
  Index.step index_waiting (Index.WsOpen 0).

(** Start and stop are pressed within 100 ms on the connected main
    screen. *)
Definition index_start_stop : Index.State :=
  Index.run Scenario.index_connected [Index.PressStart; Index.PressStop].

(** The modal screen streams, its socket is closed by the server, the user
    presses start (which reconnects) and the new socket opens. *)
Definition modal_reopened : Modal.State :=
  Modal.run Scenario.modal_streaming
    [Modal.WsClose 0; Modal.PressStart; Modal.WsOpen 1].

(** On the modal screen four frames were sent; the timer fires, the server
    closes the socket while the camera is busy, and the capture completes. *)
Definition modal_fifth_unsent : Modal.State :=
  Modal.run Scenario.modal_four_frames
    [Modal.Tick 1; Modal.WsClose 0; Modal.CaptureDone Scenario.photo].



End Session.

(** * Properties *)

Local Close Scope string_scope.
Local Open Scope list_scope.

(** ** Lists: the sliding window [[...prev.slice(-11), x]] *)

Section Window.

Context {A : Type}.
Implicit Types (l r : list A) (n m : nat).

Lemma slice_last_length n l : length (slice_last n l) = Nat.min n (length l).
Proof. unfold slice_last. rewrite length_skipn. lia. Qed.

Lemma slice_last_all n l : (length l <= n)%nat -> slice_last n l = l.
Proof.
  intros H. unfold slice_last.
  replace (length l - n)%nat with 0%nat by lia. reflexivity.
Qed.

Lemma slice_last_app n l r :
  slice_last n (l ++ r) = slice_last (n - length r) l ++ slice_last n r.
Proof.
  unfold slice_last. rewrite length_app, skipn_app. f_equal.
  - destruct (Nat.le_gt_cases (length r) n) as [Hle | Hgt].
    + f_equal. lia.
    + rewrite !skipn_all2 by lia. reflexivity.
  - f_equal. lia.
Qed.

Lemma slice_last_slice_last n m l :
  (n <= m)%nat -> slice_last n (slice_last m l) = slice_last n l.
Proof.
  intros H. unfold slice_last. rewrite length_skipn, skipn_skipn. f_equal. lia.
Qed.

(** Appending to the last [n] elements is the last [n + 1] elements of the
    extended list. *)
Lemma slice_last_snoc n l (x : A) :
  slice_last n l ++ [x] = slice_last (S n) (l ++ [x]).
Proof.
  rewrite slice_last_app. cbn [length].
  replace (S n - 1)%nat with n by lia.
  rewrite (slice_last_all (S n) [x]) by (cbn; lia). reflexivity.
Qed.

Lemma slice_last_absorb n l r :
  slice_last n (slice_last n l ++ r) = slice_last n (l ++ r).
Proof.
  rewrite !slice_last_app. f_equal. apply slice_last_slice_last. lia.
Qed.

Lemma slice_last_covered n l r :
  (n <= length r)%nat -> slice_last n (l ++ r) = slice_last n r.
Proof.
  intros H. rewrite slice_last_app.
  replace (n - length r)%nat with 0%nat by lia.
  unfold slice_last at 1. rewrite Nat.sub_0_r, skipn_all. reflexivity.
Qed.

End Window.

Lemma window_push {A : Type} (h rest : list A) (x : A) :
  slice_last 12 ((slice_last 11 h ++ [x]) ++ rest) = slice_last 12 ((h ++ [x]) ++ rest).
Proof. rewrite slice_last_snoc. apply slice_last_absorb. Qed.

Lemma window_push_length {A : Type} (h : list A) (x : A) :
  (length (slice_last 11 h ++ [x]) <= 12)%nat.
Proof. rewrite length_app, slice_last_length. cbn [length]. lia. Qed.

(** ** The main screen *)

Ltac index_handlers :=
  unfold Index.step, Index.run_callback, Index.startAnalysis, Index.stopAnalysis,
    Index.toggleStreamFPS, Index.toggleCameraFacing, Index.clearHistory,
    Index.captureFrame_resume, Index.captureFrame_begin, Index.startVideoStream,
    Index.disconnectWebSocket, Index.stopVideoStream, Index.onmessage,
    Index.handleWebSocketMessage, Index.onopen, Index.onclose, Index.onerror,
    Index.connectWebSocket, Index.setTimeout, Index.send in *.

(** Call-by-value unfolding of the cells and their setters. *)
Ltac index_cells :=
  cbv [
    Index.analysisActive Index.setAnalysisActive Index.chatHistory
    Index.setChatHistory Index.totalPredictions Index.setTotalPredictions
    Index.currentPrediction Index.setCurrentPrediction Index.status
    Index.setStatus Index.isConnected Index.setIsConnected Index.streamFPS
    Index.setStreamFPS Index.facing Index.setFacing Index.cameraRef
    Index.set_cameraRef Index.wsRef Index.set_wsRef Index.frameCountRef
    Index.set_frameCountRef Index.captureIntervalRef
    Index.set_captureIntervalRef Index.errorAlertShownRef
    Index.set_errorAlertShownRef Index.isStreamingRef
    Index.set_isStreamingRef Index.lastFrameTimeRef
    Index.set_lastFrameTimeRef Index.isMountedRef Index.set_isMountedRef
    Index.sockets Index.set_sockets Index.inflight Index.set_inflight
    Index.timeouts Index.set_timeouts Index.sent Index.set_sent
    Index.readyState Index.ws_is_open Index.send Index.setTimeout
    Index.stopVideoStream Index.stopAnalysis
  ].

(** Splitting the conjunctions of a goal about concrete sessions, which are
    then evaluated. *)
Ltac conjs :=
  cbv zeta; repeat match goal with |- _ /\ _ => split end.

(** Case analysis on every scrutinee of the goal, innermost first. *)
Ltac split_matches :=
  repeat match goal with
    | |- context [match ?x with _ => _ end] =>
        lazymatch x with
        | context [match _ with _ => _ end] => fail
        | _ => destruct x eqn:?
        end
    end.

Lemma index_reachable_run (s : Index.State) (es : list Index.Event) :
  Index.reachable s -> Index.reachable (Index.run s es).
Proof.
  revert s. induction es as [| e es IH]; intros s H; cbn.
  - exact H.
  - apply IH. now constructor.
Qed.

(** An event leaves the history alone, empties it, or pushes one entry on
    its last eleven. *)
Lemma index_step_history (s : Index.State) (e : Index.Event) :
  Index.chatHistory (Index.step s e) = Index.chatHistory s \/
  Index.chatHistory (Index.step s e) = [] \/
  exists x, Index.chatHistory (Index.step s e) = slice_last 11 (Index.chatHistory s) ++ [x].
Proof. destruct e; index_handlers; split_matches; cbn; eauto. Qed.

Lemma index_history_bounded (s : Index.State) :
  Index.reachable s -> (length (Index.chatHistory s) <= 12)%nat.
Proof.
  induction 1 as [| s e _ IH].
  - cbn. lia.
  - destruct (index_step_history s e) as [-> | [-> | [x ->]]].
    + exact IH.
    + cbn. lia.
    + apply window_push_length.
Qed.

Lemma index_handle_history (data : Data) (time : string) (s : Index.State) :
  Index.chatHistory (Index.handleWebSocketMessage data time s) =
  match Index.entry (data, time) with
  | [] => Index.chatHistory s
  | x :: _ => slice_last 11 (Index.chatHistory s) ++ [x]
  end.
Proof.
  unfold Index.handleWebSocketMessage, Index.entry.
  destruct (Index.switch (Index.msgType data)); cbn; try reflexivity.
  destruct (Index.errorAlertShownRef s); reflexivity.
Qed.

Lemma index_entry_short (m : Data * string) : (length (Index.entry m) <= 1)%nat.
Proof.
  destruct m as [data time]. unfold Index.entry.
  destruct (Index.switch (Index.msgType data)); cbn; lia.
Qed.

Lemma index_receive_history (arrivals : list (Data * string)) (s : Index.State) :
  Index.chatHistory (Index.receive arrivals s) =
  match flat_map Index.entry arrivals with
  | [] => Index.chatHistory s
  | appended => slice_last 12 (Index.chatHistory s ++ appended)
  end.
Proof.
  revert s. induction arrivals as [| [data time] rest IH]; intros s.
  - reflexivity.
  - change (Index.receive ((data, time) :: rest) s)
      with (Index.receive rest (Index.handleWebSocketMessage data time s)).
    rewrite IH, index_handle_history. cbn [flat_map].
    pose proof (index_entry_short (data, time)) as Hshort.
    destruct (Index.entry (data, time)) as [| x [| y more]]; cbn [length] in Hshort;
      try lia; cbn [app].
    + reflexivity.
    + destruct (flat_map Index.entry rest) as [| z more].
      * apply slice_last_snoc.
      * rewrite window_push, <- app_assoc. reflexivity.
Qed.

Lemma index_appends_short (s : Index.State) (e : Index.Event) :
  (length (Index.appends s e) <= 1)%nat.
Proof.
  destruct e; try (cbn; lia).
  unfold Index.appends. destruct p as [| data]; [cbn; lia |].
  destruct (nth_error (Index.sockets s) ws) as [[ | | | ] |];
    first [apply index_entry_short | cbn; lia].
Qed.

(** Apart from the clear button, an event changes the history only by
    pushing the entry it appends. *)
Lemma index_step_appends (s : Index.State) (e : Index.Event) :
  e <> Index.PressClear ->
  Index.chatHistory (Index.step s e) =
  match Index.appends s e with
  | [] => Index.chatHistory s
  | x :: _ => slice_last 11 (Index.chatHistory s) ++ [x]
  end.
Proof.
  intros Hclear. destruct e; try congruence.
  5: { cbn [Index.step Index.appends].
       destruct p as [| data]; [now destruct (nth_error (Index.sockets s) ws) as [[ | | | ] |] |].
       destruct (nth_error (Index.sockets s) ws) as [[ | | | ] |]; try reflexivity;
         apply index_handle_history. }
  all: cbn [Index.appends]; index_handlers; split_matches; reflexivity.
Qed.

Lemma index_run_history (es : list Index.Event) (s : Index.State) :
  ~ In Index.PressClear es ->
  Index.chatHistory (Index.run s es) =
  match Index.appended s es with
  | [] => Index.chatHistory s
  | entries => slice_last 12 (Index.chatHistory s ++ entries)
  end.
Proof.
  revert s. induction es as [| e rest IH]; intros s Hclear.
  - reflexivity.
  - change (Index.run s (e :: rest)) with (Index.run (Index.step s e) rest).
    rewrite IH by (intros Hin; apply Hclear; now right).
    rewrite index_step_appends by (intros ->; apply Hclear; now left).
    cbn [Index.appended].
    pose proof (index_appends_short s e) as Hshort.
    destruct (Index.appends s e) as [| x [| y more]]; cbn [length] in Hshort;
      try lia; cbn [app].
    + reflexivity.
    + destruct (Index.appended (Index.step s e) rest) as [| z more].
      * apply slice_last_snoc.
      * rewrite window_push, <- app_assoc. reflexivity.
Qed.

(** ** The modal screen *)

Ltac modal_handlers :=
  unfold Modal.step, Modal.run_callback, Modal.startAnalysis, Modal.stopAnalysis,
    Modal.toggleCameraFacing, Modal.clearHistory, Modal.captureFrame_resume,
    Modal.captureFrame_begin, Modal.disconnectWebSocket, Modal.onmessage,
    Modal.handleWebSocketMessage, Modal.onopen, Modal.onclose, Modal.onerror,
    Modal.connectWebSocket, Modal.setTimeout, Modal.setInterval,
    Modal.clearInterval, Modal.send, Modal.transmit in *.

Lemma modal_reachable_run (s : Modal.State) (es : list Modal.Event) :
  Modal.reachable s -> Modal.reachable (Modal.run s es).
Proof.
  revert s. induction es as [| e es IH]; intros s H; cbn.
  - exact H.
  - apply IH. now constructor.
Qed.

Lemma modal_step_history (s : Modal.State) (e : Modal.Event) :
  Modal.chatHistory (Modal.step s e) = Modal.chatHistory s \/
  Modal.chatHistory (Modal.step s e) = [] \/
  exists x, Modal.chatHistory (Modal.step s e) = slice_last 11 (Modal.chatHistory s) ++ [x].
Proof. destruct e; modal_handlers; split_matches; cbn; eauto. Qed.

Lemma modal_history_bounded (s : Modal.State) :
  Modal.reachable s -> (length (Modal.chatHistory s) <= 12)%nat.
Proof.
  induction 1 as [| s e _ IH].
  - cbn. lia.
  - destruct (modal_step_history s e) as [-> | [-> | [x ->]]].
    + exact IH.
    + cbn. lia.
    + apply window_push_length.
Qed.

Lemma modal_handle_history (data : Data) (time : string) (s : Modal.State) :
  Modal.chatHistory (Modal.handleWebSocketMessage data time s) =
  match Modal.entry (data, time) with
  | [] => Modal.chatHistory s
  | x :: _ => slice_last 11 (Modal.chatHistory s) ++ [x]
  end.
Proof.
  unfold Modal.handleWebSocketMessage, Modal.entry.
  destruct (Modal.switch (d_type data)); reflexivity.
Qed.

Lemma modal_entry_short (m : Data * string) : (length (Modal.entry m) <= 1)%nat.
Proof.
  destruct m as [data time]. unfold Modal.entry.
  destruct (Modal.switch (d_type data)); cbn; lia.
Qed.

Lemma modal_receive_history (arrivals : list (Data * string)) (s : Modal.State) :
  Modal.chatHistory (Modal.receive arrivals s) =
  match flat_map Modal.entry arrivals with
  | [] => Modal.chatHistory s
  | appended => slice_last 12 (Modal.chatHistory s ++ appended)
  end.
Proof.
  revert s. induction arrivals as [| [data time] rest IH]; intros s.
  - reflexivity.
  - change (Modal.receive ((data, time) :: rest) s)
      with (Modal.receive rest (Modal.handleWebSocketMessage data time s)).
    rewrite IH, modal_handle_history. cbn [flat_map].
    pose proof (modal_entry_short (data, time)) as Hshort.
    destruct (Modal.entry (data, time)) as [| x [| y more]]; cbn [length] in Hshort;
      try lia; cbn [app].
    + reflexivity.
    + destruct (flat_map Modal.entry rest) as [| z more].
      * apply slice_last_snoc.
      * rewrite window_push, <- app_assoc. reflexivity.
Qed.

Lemma modal_appends_short (s : Modal.State) (e : Modal.Event) :
  (length (Modal.appends s e) <= 1)%nat.
Proof.
  destruct e; try (cbn; lia).
  unfold Modal.appends. destruct p as [| data]; [cbn; lia |].
  destruct (nth_error (Modal.sockets s) ws) as [[ | | | ] |];
    first [apply modal_entry_short | cbn; lia].
Qed.

Lemma modal_step_appends (s : Modal.State) (e : Modal.Event) :
  e <> Modal.PressClear ->
  Modal.chatHistory (Modal.step s e) =
  match Modal.appends s e with
  | [] => Modal.chatHistory s
  | x :: _ => slice_last 11 (Modal.chatHistory s) ++ [x]
  end.
Proof.
  intros Hclear. destruct e; try congruence.
  5: { cbn [Modal.step Modal.appends].
       destruct p as [| data]; [now destruct (nth_error (Modal.sockets s) ws) as [[ | | | ] |] |].
       destruct (nth_error (Modal.sockets s) ws) as [[ | | | ] |]; try reflexivity;
         apply modal_handle_history. }
  all: cbn [Modal.appends]; modal_handlers; split_matches; reflexivity.
Qed.

Lemma modal_run_history (es : list Modal.Event) (s : Modal.State) :
  ~ In Modal.PressClear es ->
  Modal.chatHistory (Modal.run s es) =
  match Modal.appended s es with
  | [] => Modal.chatHistory s
  | entries => slice_last 12 (Modal.chatHistory s ++ entries)
  end.
Proof.
  revert s. induction es as [| e rest IH]; intros s Hclear.
  - reflexivity.
  - change (Modal.run s (e :: rest)) with (Modal.run (Modal.step s e) rest).
    rewrite IH by (intros Hin; apply Hclear; now right).
    rewrite modal_step_appends by (intros ->; apply Hclear; now left).
    cbn [Modal.appended].
    pose proof (modal_appends_short s e) as Hshort.
    destruct (Modal.appends s e) as [| x [| y more]]; cbn [length] in Hshort;
      try lia; cbn [app].
    + reflexivity.
    + destruct (Modal.appended (Modal.step s e) rest) as [| z more].
      * apply slice_last_snoc.
      * rewrite window_push, <- app_assoc. reflexivity.
Qed.

(** ** The history buffer *)

(** C3.  The chat history never holds more than 12 entries, on either
    screen and in every state the screen can reach.  Once at least 12
    entries have been appended (predictions, status notices and, on the main
    screen, error notices), whether the messages are handled in a row or
    arrive in the course of a run of other events in which the history is
    not cleared, the history is exactly the 12 entries appended last, in
    their order of arrival: the older ones were evicted first. *)
Theorem C3_history_keeps_last_twelve :
  (forall s, Index.reachable s -> (length (Index.chatHistory s) <= 12)%nat) /\
  (forall s, Modal.reachable s -> (length (Modal.chatHistory s) <= 12)%nat) /\
  (forall arrivals s,
      (12 <= length (flat_map Index.entry arrivals))%nat ->
      Index.chatHistory (Index.receive arrivals s)
        = slice_last 12 (flat_map Index.entry arrivals) /\
      length (Index.chatHistory (Index.receive arrivals s)) = 12%nat) /\
  (forall arrivals s,
      (12 <= length (flat_map Modal.entry arrivals))%nat ->
      Modal.chatHistory (Modal.receive arrivals s)
        = slice_last 12 (flat_map Modal.entry arrivals) /\
      length (Modal.chatHistory (Modal.receive arrivals s)) = 12%nat) /\
  (forall es s,
      ~ In Index.PressClear es ->
      (12 <= length (Index.appended s es))%nat ->
      Index.chatHistory (Index.run s es) = slice_last 12 (Index.appended s es) /\
      length (Index.chatHistory (Index.run s es)) = 12%nat) /\
  (forall es s,
      ~ In Modal.PressClear es ->
      (12 <= length (Modal.appended s es))%nat ->
      Modal.chatHistory (Modal.run s es) = slice_last 12 (Modal.appended s es) /\
      length (Modal.chatHistory (Modal.run s es)) = 12%nat).
Proof.
  split; [exact index_history_bounded |].
  split; [exact modal_history_bounded |].
  split; [| split; [| split]].
  - intros arrivals s Hlen. rewrite index_receive_history.
    destruct (flat_map Index.entry arrivals) as [| x rest] eqn:E.
    + cbn in Hlen. lia.
    + rewrite slice_last_covered by exact Hlen.
      split; [reflexivity |]. rewrite slice_last_length. lia.
  - intros arrivals s Hlen. rewrite modal_receive_history.
    destruct (flat_map Modal.entry arrivals) as [| x rest] eqn:E.
    + cbn in Hlen. lia.
    + rewrite slice_last_covered by exact Hlen.
      split; [reflexivity |]. rewrite slice_last_length. lia.
  - intros es s Hclear Hlen. rewrite index_run_history by exact Hclear.
    destruct (Index.appended s es) as [| x rest] eqn:E.
    + cbn in Hlen. lia.
    + rewrite slice_last_covered by exact Hlen.
      split; [reflexivity |]. rewrite slice_last_length. lia.
  - intros es s Hclear Hlen. rewrite modal_run_history by exact Hclear.
    destruct (Modal.appended s es) as [| x rest] eqn:E.
    + cbn in Hlen. lia.
    + rewrite slice_last_covered by exact Hlen.
      split; [reflexivity |]. rewrite slice_last_length. lia.
Qed.

(** Thirteen messages arrive on the streaming main screen, twenty-six on
    the modal screen, in a row and in the course of a busy run: each history
    ends up holding the twelve entries appended last. *)
Lemma C3_history_keeps_last_twelve_witness :
  (length (Index.chatHistory Scenario.index_one_frame) <= 12)%nat /\
  (length (Modal.chatHistory Scenario.modal_four_frames) <= 12)%nat /\
  Index.chatHistory (Index.receive Scenario.thirteen Scenario.index_streaming)
    = slice_last 12 (flat_map Index.entry Scenario.thirteen) /\
  Modal.chatHistory
    (Modal.receive (Scenario.thirteen ++ Scenario.thirteen) Scenario.modal_streaming)
    = slice_last 12 (flat_map Modal.entry (Scenario.thirteen ++ Scenario.thirteen)) /\
  Index.chatHistory (Index.run Scenario.index_streaming Scenario.index_busy_run)
    = slice_last 12 (Index.appended Scenario.index_streaming Scenario.index_busy_run) /\
  Modal.chatHistory (Modal.run Scenario.modal_streaming Scenario.modal_busy_run)
    = slice_last 12 (Modal.appended Scenario.modal_streaming Scenario.modal_busy_run).
Proof.
  destruct C3_history_keeps_last_twelve as (Hi & Hm & Hwi & Hwm & Hri & Hrm).
  split; [| split; [| split; [| split; [| split]]]].
  - apply Hi. unfold Scenario.index_one_frame, Scenario.index_streaming,
      Scenario.index_connected.
    repeat apply index_reachable_run. constructor.
  - apply Hm. unfold Scenario.modal_four_frames, Scenario.modal_streaming.
    repeat apply modal_reachable_run. constructor.
  - apply Hwi. vm_compute. lia.
  - apply Hwm. vm_compute. lia.
  - apply Hri.
    + vm_compute. intuition discriminate.
    + vm_compute. lia.
  - apply Hrm.
    + vm_compute. intuition discriminate.
    + vm_compute. lia.
Defined.

(** C10.  On both screens [clearHistory] empties the history, sets the
    prediction counter to 0 and the current prediction to null; every other
    cell (the analysis flag, the connection state, the frame counter, the
    target rate, the scheduler and the socket) keeps its value. *)
Theorem C10_clearHistory_touches_three_cells :
  (forall s : Index.State,
      Index.clearHistory s =
      {| Index.analysisActive := Index.analysisActive s;
         Index.chatHistory := [];
         Index.totalPredictions := 0;
         Index.currentPrediction := None;
         Index.status := Index.status s;
         Index.isConnected := Index.isConnected s;
         Index.streamFPS := Index.streamFPS s;
         Index.facing := Index.facing s;
         Index.cameraRef := Index.cameraRef s;
         Index.wsRef := Index.wsRef s;
         Index.frameCountRef := Index.frameCountRef s;
         Index.captureIntervalRef := Index.captureIntervalRef s;
         Index.errorAlertShownRef := Index.errorAlertShownRef s;
         Index.isStreamingRef := Index.isStreamingRef s;
         Index.lastFrameTimeRef := Index.lastFrameTimeRef s;
         Index.isMountedRef := Index.isMountedRef s;
         Index.sockets := Index.sockets s;
         Index.inflight := Index.inflight s;
         Index.timeouts := Index.timeouts s;
         Index.sent := Index.sent s |}) /\
  (forall s : Modal.State,
      Modal.clearHistory s =
      {| Modal.analysisActive := Modal.analysisActive s;
         Modal.chatHistory := [];
         Modal.totalPredictions := 0;
         Modal.currentPrediction := None;
         Modal.status := Modal.status s;
         Modal.isConnected := Modal.isConnected s;
         Modal.facing := Modal.facing s;
         Modal.cameraRef := Modal.cameraRef s;
         Modal.wsRef := Modal.wsRef s;
         Modal.frameCountRef := Modal.frameCountRef s;
         Modal.captureIntervalRef := Modal.captureIntervalRef s;
         Modal.sockets := Modal.sockets s;
         Modal.intervals := Modal.intervals s;
         Modal.nextTimerId := Modal.nextTimerId s;
         Modal.inflight := Modal.inflight s;
         Modal.timeouts := Modal.timeouts s;
         Modal.alerts := Modal.alerts s;
         Modal.sent := Modal.sent s |}) /\
  (forall s, Index.step s Index.PressClear = Index.clearHistory s) /\
  (forall s, Modal.step s Modal.PressClear = Modal.clearHistory s).
Proof. repeat split. Qed.

(** ** The frame scheduler of the main screen *)

(** C1.  The capture interval that [startVideoStream] computes is
    [100 / streamFPS] ms for each of the rates 3, 5, 8 and 10, a tenth of
    [1000 / streamFPS]; the repeating timer is armed at half of it.  At
    5 FPS the interval is 20 ms and the timer period 10 ms: with the last
    accepted capture at [t = 1000], the tick at [t = 1020] issues a capture
    although only 20 ms of the 200 ms have elapsed. *)
Theorem C1_interval_is_100_over_fps :
  Forall (fun fps =>
            (Index.frameInterval fps * 10 == 1000 / inject_Z fps)%Q /\
            ~ (Index.frameInterval fps == 1000 / inject_Z fps)%Q)
         Index.fpsOptions /\
  (forall fps s,
      Index.captureIntervalRef (Index.startVideoStream fps s)
        = if Index.cameraRef s && Index.ws_is_open s
          then Some (Index.mkInterval fps (Index.frameInterval fps)
                                      (Index.frameInterval fps / 2)%Q)
          else Index.captureIntervalRef s) /\
  Index.captureIntervalRef Scenario.index_streaming
    = Some (Index.mkInterval 5 (Index.frameInterval 5) (Index.frameInterval 5 / 2)%Q) /\
  (Index.frameInterval 5 == 20)%Q /\
  (Index.frameInterval 5 / 2 == 10)%Q /\
  Index.lastFrameTimeRef Scenario.index_one_frame = 1000 /\
  Index.inflight Scenario.index_one_frame = [] /\
  Index.inflight (Index.step Scenario.index_one_frame (Index.Tick 1020))
    = [Index.mkInFlight 1020 5] /\
  (inject_Z (1020 - 1000) < 1000 / inject_Z 5)%Q.
Proof.
  split.
  { repeat constructor; vm_compute; congruence. }
  split.
  { intros fps s. unfold Index.startVideoStream.
    destruct (Index.cameraRef s), (Index.ws_is_open s); reflexivity. }
  conjs; vm_compute; congruence.
Qed.

(** C2.  [ws.onclose] sets [analysisActive] and [isConnected] to false and
    touches nothing else: the streaming flag and the repeating capture timer
    stay as they were.  On a streaming screen whose socket closes, the
    timer keeps firing and keeps calling the camera; nothing is sent while
    the socket referenced is closed, but once a later connection opens the
    frames of the old scheduler go out on it with [analysisActive] false.
    [stopAnalysis], by contrast, stops the scheduler. *)
Theorem C2_onclose_leaves_scheduler_running :
  (forall s,
      Index.analysisActive (Index.onclose s) = false /\
      Index.isConnected (Index.onclose s) = false /\
      Index.isStreamingRef (Index.onclose s) = Index.isStreamingRef s /\
      Index.captureIntervalRef (Index.onclose s) = Index.captureIntervalRef s) /\
  Index.analysisActive Scenario.index_streaming = true /\
  Index.isStreamingRef Scenario.index_streaming = true /\
  Index.analysisActive Scenario.index_closed = false /\
  Index.isStreamingRef Scenario.index_closed = true /\
  Index.captureIntervalRef Scenario.index_closed
    = Index.captureIntervalRef Scenario.index_streaming /\
  Index.captureIntervalRef Scenario.index_closed <> None /\
  Index.inflight (Index.step Scenario.index_closed (Index.Tick 1000))
    = [Index.mkInFlight 1000 5] /\
  Index.sent (Index.run Scenario.index_closed
                        [Index.Tick 1000; Index.CaptureDone 0 Scenario.photo])
    = Index.sent Scenario.index_streaming /\
  Index.analysisActive Scenario.index_reconnected = false /\
  Index.sent Scenario.index_reconnected
    = Index.sent Scenario.index_streaming ++ [Index.video_frame "AAAA" 1 1000 640 480] /\
  Index.isStreamingRef (Index.stopAnalysis Scenario.index_streaming) = false /\
  Index.captureIntervalRef (Index.stopAnalysis Scenario.index_streaming) = None.
Proof.
  split.
  { intros s. repeat split. }
  conjs; vm_compute; congruence.
Qed.

(** ** The frame counter *)

Lemma index_resume_frameCount (c : Index.InFlight) (photo : CaptureResult) (s : Index.State) :
  Index.frameCountRef (Index.captureFrame_resume c photo s) =
  if has_base64 photo && Index.ws_is_open s
  then Index.frameCountRef s + 1
  else Index.frameCountRef s.
Proof.
  unfold Index.captureFrame_resume, Index.send.
  destruct photo as [base64 width height | |]; try reflexivity.
  destruct (has_base64 (Photo base64 width height) && Index.ws_is_open s)%bool;
    [| reflexivity].
  cbn. destruct (Z.rem (Index.frameCountRef s + 1) 15 =? 0)%Z; cbn;
    destruct (Z.rem (Index.frameCountRef s + 1) 10 =? 0)%Z; reflexivity.
Qed.

Lemma index_step_frameCount (s : Index.State) (e : Index.Event) :
  Index.frameCountRef (Index.step s e) = Index.frameCountRef s \/
  (exists i, e = Index.TimeoutFires i /\
             Index.isStreamingRef (Index.step s e) = true /\
             Index.frameCountRef (Index.step s e) = 0) \/
  (exists i photo, e = Index.CaptureDone i photo /\
                   has_base64 photo = true /\
                   Index.frameCountRef (Index.step s e) = Index.frameCountRef s + 1).
Proof.
  destruct e; index_handlers; split_matches; cbn; eauto.
  all: try (right; left; eexists; repeat split; reflexivity).
  all: try (right; right; do 2 eexists; repeat split; eauto;
            match goal with
            | H : (_ && _)%bool = true |- _ => apply andb_prop in H; tauto
            end).
Qed.

Lemma modal_resume_frameCount (photo : CaptureResult) (s : Modal.State) :
  Modal.frameCountRef (Modal.captureFrame_resume photo s) =
  if has_base64 photo then Modal.frameCountRef s + 1 else Modal.frameCountRef s.
Proof.
  unfold Modal.captureFrame_resume, Modal.send, Modal.transmit.
  destruct photo as [base64 width height | |]; try reflexivity.
  destruct (has_base64 (Photo base64 width height)); [| reflexivity].
  split_matches; subst;
    repeat match goal with
      | H : Some _ = Some _ |- _ => injection H as <-
      | H : None = Some _ |- _ => discriminate H
      end; reflexivity.
Qed.

Lemma modal_step_frameCount (s : Modal.State) (e : Modal.Event) :
  Modal.frameCountRef (Modal.step s e) = Modal.frameCountRef s \/
  (exists photo, e = Modal.CaptureDone photo /\
                 has_base64 photo = true /\
                 Modal.frameCountRef (Modal.step s e) = Modal.frameCountRef s + 1).
Proof.
  destruct e; modal_handlers; split_matches; cbn; eauto.
Qed.

(** C4, as the code has it.  On the main screen [startVideoStream] resets
    the frame counter to 0 whenever it passes its guards (camera present,
    socket open) and starts streaming; a capture that returns frame data
    while the socket is open increments the counter by exactly 1; no other
    event changes the counter.  On the modal screen [startAnalysis] leaves
    the counter as it is, a capture that returns frame data increments it by
    exactly 1, and no other event changes it. *)
Theorem C4_frame_counter_updates :
  (forall fps s,
      Index.frameCountRef (Index.startVideoStream fps s)
        = (if Index.cameraRef s && Index.ws_is_open s then 0 else Index.frameCountRef s) /\
      Index.isStreamingRef (Index.startVideoStream fps s)
        = (if Index.cameraRef s && Index.ws_is_open s then true else Index.isStreamingRef s)) /\
  (forall c photo s,
      Index.frameCountRef (Index.captureFrame_resume c photo s)
        = if has_base64 photo && Index.ws_is_open s
          then Index.frameCountRef s + 1
          else Index.frameCountRef s) /\
  (forall s e,
      Index.frameCountRef (Index.step s e) = Index.frameCountRef s \/
      (exists i, e = Index.TimeoutFires i /\
                 Index.isStreamingRef (Index.step s e) = true /\
                 Index.frameCountRef (Index.step s e) = 0) \/
      (exists i photo, e = Index.CaptureDone i photo /\
                       has_base64 photo = true /\
                       Index.frameCountRef (Index.step s e) = Index.frameCountRef s + 1)) /\
  (forall isConnected_then s,
      Modal.frameCountRef (Modal.startAnalysis isConnected_then s) = Modal.frameCountRef s) /\
  (forall photo s,
      Modal.frameCountRef (Modal.captureFrame_resume photo s)
        = if has_base64 photo then Modal.frameCountRef s + 1 else Modal.frameCountRef s) /\
  (forall s e,
      Modal.frameCountRef (Modal.step s e) = Modal.frameCountRef s \/
      (exists photo, e = Modal.CaptureDone photo /\
                     has_base64 photo = true /\
                     Modal.frameCountRef (Modal.step s e) = Modal.frameCountRef s + 1)).
Proof.
  split.
  { intros fps s. unfold Index.startVideoStream.
    destruct (Index.cameraRef s), (Index.ws_is_open s); split; reflexivity. }
  split; [exact index_resume_frameCount |].
  split; [exact index_step_frameCount |].
  split.
  { intros [|] s; unfold Modal.startAnalysis; cbn; [| reflexivity].
    match goal with |- context [if ?b then _ else _] => destruct b end; reflexivity. }
  split; [exact modal_resume_frameCount | exact modal_step_frameCount].
Qed.

(** On the modal screen four frames are sent, the user stops and starts
    again: the second stream begins with the frame counter at 4. *)
Lemma C4_modal_start_keeps_counter :
  Modal.analysisActive Scenario.modal_stopped = false /\
  Modal.frameCountRef Scenario.modal_stopped = 4 /\
  Modal.analysisActive Scenario.modal_restarted = true /\
  Modal.captureIntervalRef Scenario.modal_restarted <> None /\
  Modal.frameCountRef Scenario.modal_restarted = 4 /\
  Modal.frameCountRef Scenario.modal_restarted <> 0.
Proof. conjs; vm_compute; congruence. Qed.

(** ** Acknowledgements *)

Lemma index_resume_sent (c : Index.InFlight) (photo : CaptureResult) (s : Index.State) :
  Index.sent (Index.captureFrame_resume c photo s) =
  match photo with
  | Photo base64 width height =>
      if has_base64 photo && Index.ws_is_open s then
        Index.sent s
          ++ Index.video_frame base64 (Index.frameCountRef s + 1) (Index.cap_now c)
                               width height
          :: (if (Z.rem (Index.frameCountRef s + 1) 10 =? 0)%Z
              then [Index.ack (Index.frameCountRef s + 1) (Index.cap_streamFPS c)]
              else [])
      else Index.sent s
  | _ => Index.sent s
  end.
Proof.
  unfold Index.captureFrame_resume, Index.send.
  destruct photo as [base64 width height | |]; try reflexivity.
  destruct (has_base64 (Photo base64 width height) && Index.ws_is_open s)%bool;
    [| reflexivity].
  cbn. destruct (Z.rem (Index.frameCountRef s + 1) 15 =? 0)%Z; cbn;
    destruct (Z.rem (Index.frameCountRef s + 1) 10 =? 0)%Z; cbn;
    rewrite <- ?app_assoc; reflexivity.
Qed.

Ltac no_new_ack :=
  exists []; split; [symmetry; apply app_nil_r | left; reflexivity].

(** What an event transmits extends the list of sent messages; an
    acknowledgement is among the new messages only when the event is a
    capture that brought the frame counter to a multiple of 10, and then
    exactly once. *)
Lemma index_step_sent (s : Index.State) (e : Index.Event) :
  exists out,
    Index.sent (Index.step s e) = Index.sent s ++ out /\
    (filter Index.is_ack out = [] \/
     exists i photo c,
       e = Index.CaptureDone i photo /\
       nth_error (Index.inflight s) i = Some c /\
       has_base64 photo = true /\
       Index.frameCountRef (Index.step s e) = Index.frameCountRef s + 1 /\
       Z.rem (Index.frameCountRef (Index.step s e)) 10 = 0 /\
       filter Index.is_ack out
         = [Index.ack (Index.frameCountRef (Index.step s e)) (Index.cap_streamFPS c)]).
Proof.
  destruct e as [ | | | | | | | | | | | | | i photo | ].
  14: {
    cbn [Index.step].
    destruct (nth_error (Index.inflight s) i) as [c |] eqn:Hc; [| no_new_ack].
    rewrite index_resume_sent, index_resume_frameCount.
    change (Index.ws_is_open (Index.set_inflight (remove_nth i (Index.inflight s)) s))
      with (Index.ws_is_open s).
    change (Index.sent (Index.set_inflight (remove_nth i (Index.inflight s)) s))
      with (Index.sent s).
    change (Index.frameCountRef (Index.set_inflight (remove_nth i (Index.inflight s)) s))
      with (Index.frameCountRef s).
    destruct photo as [base64 width height | |]; try no_new_ack.
    destruct (has_base64 (Photo base64 width height)) eqn:Hphoto;
      cbn [andb]; [| no_new_ack].
    destruct (Index.ws_is_open s); [| no_new_ack].
    destruct (Z.rem (Index.frameCountRef s + 1) 10 =? 0)%Z eqn:Hten;
      eexists; (split; [reflexivity |]).
    - right. exists i, (Photo base64 width height), c.
      apply Z.eqb_eq in Hten. repeat split; auto.
    - now left. }
  all: index_handlers; split_matches; cbn.
  all: try no_new_ack.
  all: try (eexists; split; [reflexivity | left; reflexivity]).
Qed.

Lemma modal_resume_sent (photo : CaptureResult) (s : Modal.State) :
  Modal.sent (Modal.captureFrame_resume photo s) =
  match photo with
  | Photo base64 _ _ =>
      if has_base64 photo && Modal.ws_is_open s then
        Modal.sent s
          ++ Modal.frame base64
          :: (if (Z.rem (Modal.frameCountRef s + 1) 5 =? 0)%Z
              then [Modal.ack (Modal.frameCountRef s + 1)]
              else [])
      else Modal.sent s
  | _ => Modal.sent s
  end.
Proof.
  unfold Modal.captureFrame_resume, Modal.send, Modal.transmit, Modal.ws_is_open.
  destruct photo as [base64 width height | |]; try reflexivity.
  destruct (has_base64 (Photo base64 width height)); [| reflexivity].
  cbn [andb].
  change (Modal.readyState (Modal.set_frameCountRef (Modal.frameCountRef s + 1) s))
    with (Modal.readyState s).
  destruct (Modal.readyState s) as [[ | | | ] |] eqn:Hready; cbn;
    try reflexivity.
  - change (Modal.readyState _) with (Modal.readyState s). rewrite Hready.
    destruct (Z.rem (Modal.frameCountRef s + 1) 5 =? 0)%Z; cbn;
      rewrite <- ?app_assoc; reflexivity.
  - change (Modal.readyState _) with (Modal.readyState s). rewrite Hready.
    destruct (Z.rem (Modal.frameCountRef s + 1) 5 =? 0)%Z; reflexivity.
  - change (Modal.readyState _) with (Modal.readyState s). rewrite Hready.
    destruct (Z.rem (Modal.frameCountRef s + 1) 5 =? 0)%Z; reflexivity.
Qed.

Ltac modal_no_new_ack :=
  exists []; split; [symmetry; apply app_nil_r | left; reflexivity].

(** On the modal screen too, what an event transmits extends the list of
    sent messages, and an acknowledgement is among the new messages only
    when the event is a capture that completed on an open socket and
    brought the frame counter to a multiple of 5. *)
Lemma modal_step_sent (s : Modal.State) (e : Modal.Event) :
  exists out,
    Modal.sent (Modal.step s e) = Modal.sent s ++ out /\
    (filter Modal.is_ack out = [] \/
     exists photo,
       e = Modal.CaptureDone photo /\
       has_base64 photo = true /\
       Modal.ws_is_open s = true /\
       Modal.frameCountRef (Modal.step s e) = Modal.frameCountRef s + 1 /\
       Z.rem (Modal.frameCountRef (Modal.step s e)) 5 = 0 /\
       filter Modal.is_ack out = [Modal.ack (Modal.frameCountRef (Modal.step s e))]).
Proof.
  destruct e as [ | | | | | | | | | | | | photo | ].
  13: {
    cbn [Modal.step].
    destruct (Modal.inflight s) as [| n] eqn:Hn; [modal_no_new_ack |].
    rewrite modal_resume_sent, modal_resume_frameCount.
    change (Modal.ws_is_open (Modal.set_inflight n s)) with (Modal.ws_is_open s).
    change (Modal.sent (Modal.set_inflight n s)) with (Modal.sent s).
    change (Modal.frameCountRef (Modal.set_inflight n s)) with (Modal.frameCountRef s).
    destruct photo as [base64 width height | |]; try modal_no_new_ack.
    destruct (has_base64 (Photo base64 width height)) eqn:Hphoto;
      cbn [andb]; [| modal_no_new_ack].
    destruct (Modal.ws_is_open s) eqn:Hopen; [| modal_no_new_ack].
    destruct (Z.rem (Modal.frameCountRef s + 1) 5 =? 0)%Z eqn:Hfive;
      eexists; (split; [reflexivity |]).
    - right. exists (Photo base64 width height).
      apply Z.eqb_eq in Hfive. repeat split; auto.
    - now left. }
  all: modal_handlers; split_matches; cbn.
  all: try modal_no_new_ack.
  all: try (eexists; split; [reflexivity | left; reflexivity]).
Qed.

(** C5, as the code has it.  On the main screen a capture that returns
    frame data while the socket is open sends the frame and, exactly when
    the incremented frame counter is a multiple of 10, one acknowledgement
    after it, carrying that counter and the rate the capturing scheduler was
    started with; no other event sends an acknowledgement.  On the modal
    screen every capture that returns frame data increments the counter,
    whether the socket is still open or not; the frame and, exactly when the
    incremented counter is a multiple of 5, one acknowledgement carrying the
    counter only are sent only if the socket is open when the capture
    completes, and no other event sends an acknowledgement.  Otherwise
    nothing is sent: in the session [Session.modal_fifth_unsent] the counter
    reaches 5 and no acknowledgement was ever sent. *)
Theorem C5_ack_after_every_tenth_frame :
  (forall c photo s,
      Index.sent (Index.captureFrame_resume c photo s) =
      match photo with
      | Photo base64 width height =>
          if has_base64 photo && Index.ws_is_open s then
            Index.sent s
              ++ Index.video_frame base64 (Index.frameCountRef s + 1) (Index.cap_now c)
                                   width height
              :: (if (Z.rem (Index.frameCountRef s + 1) 10 =? 0)%Z
                  then [Index.ack (Index.frameCountRef s + 1) (Index.cap_streamFPS c)]
                  else [])
          else Index.sent s
      | _ => Index.sent s
      end) /\
  (forall s e,
      exists out,
        Index.sent (Index.step s e) = Index.sent s ++ out /\
        (filter Index.is_ack out = [] \/
         exists i photo c,
           e = Index.CaptureDone i photo /\
           nth_error (Index.inflight s) i = Some c /\
           has_base64 photo = true /\
           Index.frameCountRef (Index.step s e) = Index.frameCountRef s + 1 /\
           Z.rem (Index.frameCountRef (Index.step s e)) 10 = 0 /\
           filter Index.is_ack out
             = [Index.ack (Index.frameCountRef (Index.step s e)) (Index.cap_streamFPS c)])) /\
  (forall photo s,
      Modal.sent (Modal.captureFrame_resume photo s) =
      match photo with
      | Photo base64 _ _ =>
          if has_base64 photo && Modal.ws_is_open s then
            Modal.sent s
              ++ Modal.frame base64
              :: (if (Z.rem (Modal.frameCountRef s + 1) 5 =? 0)%Z
                  then [Modal.ack (Modal.frameCountRef s + 1)]
                  else [])
          else Modal.sent s
      | _ => Modal.sent s
      end) /\
  (forall photo s,
      Modal.frameCountRef (Modal.captureFrame_resume photo s) =
      if has_base64 photo then Modal.frameCountRef s + 1 else Modal.frameCountRef s) /\
  (forall s e,
      exists out,
        Modal.sent (Modal.step s e) = Modal.sent s ++ out /\
        (filter Modal.is_ack out = [] \/
         exists photo,
           e = Modal.CaptureDone photo /\
           has_base64 photo = true /\
           Modal.ws_is_open s = true /\
           Modal.frameCountRef (Modal.step s e) = Modal.frameCountRef s + 1 /\
           Z.rem (Modal.frameCountRef (Modal.step s e)) 5 = 0 /\
           filter Modal.is_ack out
             = [Modal.ack (Modal.frameCountRef (Modal.step s e))])) /\
  (Modal.reachable Session.modal_fifth_unsent /\
   Modal.frameCountRef Session.modal_fifth_unsent = 5 /\
   Modal.sent Session.modal_fifth_unsent = Modal.sent Scenario.modal_four_frames /\
   filter Modal.is_ack (Modal.sent Session.modal_fifth_unsent) = []).
Proof.
  split; [exact index_resume_sent |].
  split; [exact index_step_sent |].
  split; [exact modal_resume_sent |].
  split; [exact modal_resume_frameCount |].
  split; [exact modal_step_sent |].
  split.
  { unfold Session.modal_fifth_unsent, Scenario.modal_four_frames,
      Scenario.modal_streaming.
    repeat apply modal_reachable_run. constructor. }
  conjs; vm_compute; reflexivity.
Qed.

(** On the modal screen the fifth frame is followed by an acknowledgement,
    although 5 is not a multiple of 10, and the acknowledgement carries no
    rate. *)
Lemma C5_modal_acks_fifth_frame :
  Modal.frameCountRef Scenario.modal_four_frames = 4 /\
  Modal.sent (Modal.run Scenario.modal_four_frames Scenario.modal_capture)
    = Modal.sent Scenario.modal_four_frames ++ [Modal.frame "AAAA"; Modal.ack 5] /\
  Z.rem 5 10 <> 0.
Proof. conjs; vm_compute; congruence. Qed.

(** ** The render that follows a handler *)











(** ** Inbound messages *)




Lemma index_msgType_discriminator (data : Data) :
  Index.msgType data =
  toLowerCase (toString match Index.discriminator data with
                        | Some v => v
                        | None => JStr ""
                        end).
Proof.
  unfold Index.msgType, Index.discriminator, Js.or.
  destruct (truthy (d_type data)) eqn:Ht;
    [repeat (rewrite Ht; cbv iota); reflexivity |].
  destruct (truthy (d_action data)) eqn:Ha;
    [repeat (rewrite Ha; cbv iota); reflexivity |].
  destruct (truthy (d_msg_type data)) eqn:Hm;
    [repeat (rewrite Hm; cbv iota); reflexivity | reflexivity].
Qed.

Lemma index_switch_cases (t : string) :
  (Index.switch t = Index.case_prediction <-> t = "prediction"%string) /\
  (Index.switch t = Index.case_status <-> t = "status"%string) /\
  (Index.switch t = Index.case_ack <-> t = "ack"%string) /\
  (Index.switch t = Index.case_error <-> t = "error"%string).
Proof.
  unfold Index.switch.
  destruct (String.eqb_spec t "prediction"); [subst; repeat split; congruence |].
  destruct (String.eqb_spec t "status"); [subst; repeat split; congruence |].
  destruct (String.eqb_spec t "ack"); [subst; repeat split; congruence |].
  destruct (String.eqb_spec t "error"); [subst; repeat split; congruence |].
  repeat split; congruence.
Qed.

Lemma modal_switch_cases (v : jsval) :
  (Modal.switch v = Modal.case_prediction <-> v = JStr "prediction") /\
  (Modal.switch v = Modal.case_status <-> v = JStr "status") /\
  (Modal.switch v = Modal.case_error <-> v = JStr "error").
Proof.
  unfold Modal.switch. destruct v as [ | | b | z | r | t | r | r ok];
    try (repeat split; congruence).
  destruct (String.eqb_spec t "prediction"); [subst; repeat split; congruence |].
  destruct (String.eqb_spec t "status"); [subst; repeat split; congruence |].
  destruct (String.eqb_spec t "error"); [subst; repeat split; congruence |].
  repeat split; congruence.
Qed.

(** C7, as the code has it.  On the main screen the discriminator is the
    first truthy value among the fields [type], [action] and [msg_type],
    converted to a string and lowercased, so that it is matched whatever its
    letter case; it selects the prediction, status, ack or error arm exactly
    when it reads so, the default arm otherwise; the ack and default arms
    change nothing.  On the modal screen the discriminator is the field
    [type] alone, compared as it is with [prediction], [status] and [error];
    the fields [action] and [msg_type] are not read, and every other message
    (an ack among them) changes nothing. *)
Theorem C7_message_classification :
  (forall data,
      Index.msgType data =
      toLowerCase (toString match Index.discriminator data with
                            | Some v => v
                            | None => JStr ""
                            end)) /\
  (forall t,
      (Index.switch t = Index.case_prediction <-> t = "prediction"%string) /\
      (Index.switch t = Index.case_status <-> t = "status"%string) /\
      (Index.switch t = Index.case_ack <-> t = "ack"%string) /\
      (Index.switch t = Index.case_error <-> t = "error"%string)) /\
  (forall data time s,
      Index.switch (Index.msgType data) = Index.case_ack \/
      Index.switch (Index.msgType data) = Index.case_default ->
      Index.handleWebSocketMessage data time s = s) /\
  (forall v,
      (Modal.switch v = Modal.case_prediction <-> v = JStr "prediction") /\
      (Modal.switch v = Modal.case_status <-> v = JStr "status") /\
      (Modal.switch v = Modal.case_error <-> v = JStr "error")) /\
  (forall type action msg_type action' msg_type' cls conf msg count time s,
      Modal.handleWebSocketMessage
        (mkData type action msg_type cls conf msg count) time s
      = Modal.handleWebSocketMessage
          (mkData type action' msg_type' cls conf msg count) time s) /\
  (forall data time s,
      Modal.switch (d_type data) = Modal.case_default ->
      Modal.handleWebSocketMessage data time s = s).
Proof.
  split; [exact index_msgType_discriminator |].
  split; [exact index_switch_cases |].
  split.
  { intros data time s [H | H]; unfold Index.handleWebSocketMessage;
      rewrite H; reflexivity. }
  split; [exact modal_switch_cases |].
  split; [reflexivity |].
  intros data time s H. unfold Modal.handleWebSocketMessage. rewrite H. reflexivity.
Qed.

(** An ack changes nothing on the main screen; on the modal screen it falls
    in the default arm and changes nothing either. *)
Lemma C7_message_classification_witness :
  Index.handleWebSocketMessage Scenario.ack_msg "10:00:01" Scenario.index_streaming
    = Scenario.index_streaming /\
  Modal.handleWebSocketMessage Scenario.ack_msg "10:00:01" Scenario.modal_streaming
    = Scenario.modal_streaming.
Proof.
  destruct C7_message_classification as (_ & _ & Hindex & _ & _ & Hmodal).
  split.
  - apply Hindex. left. vm_compute. reflexivity.
  - apply Hmodal. vm_compute. reflexivity.
Defined.

(** On the modal screen a prediction whose discriminator is in [action], or
    is written in capitals, is dropped; the main screen accepts both. *)
Lemma C7_modal_reads_type_only :
  Modal.step Scenario.modal_streaming
    (Modal.WsMessage 0 (Parsed (Scenario.action_prediction_msg "cavity")) "10:00:01")
    = Scenario.modal_streaming /\
  Modal.step Scenario.modal_streaming
    (Modal.WsMessage 0 (Parsed (Scenario.upper_prediction_msg "cavity")) "10:00:01")
    = Scenario.modal_streaming /\
  Index.switch (Index.msgType (Scenario.action_prediction_msg "cavity"))
    = Index.case_prediction /\
  Index.switch (Index.msgType (Scenario.upper_prediction_msg "cavity"))
    = Index.case_prediction /\
  Index.switch (Index.msgType (Scenario.msg_type_status_msg "warming up"))
    = Index.case_status.
Proof. conjs; vm_compute; reflexivity. Qed.

(** ** The current prediction *)

Lemma index_step_prediction (s : Index.State) (e : Index.Event) :
  Index.currentPrediction (Index.step s e) = Index.currentPrediction s \/
  Index.currentPrediction (Index.step s e) = None \/
  (exists ws data time,
      e = Index.WsMessage ws (Parsed data) time /\
      Index.switch (Index.msgType data) = Index.case_prediction /\
      Index.currentPrediction (Index.step s e)
        = Some (mkPrediction (d_predicted_class data) (d_confidence data) time) /\
      Index.analysisActive (Index.step s e) = Index.analysisActive s).
Proof.
  destruct e; index_handlers; split_matches; cbn; eauto.
  all: right; right; do 3 eexists; repeat split; eauto.
Qed.

(** C8, as the code has it.  Every stream start ([startAnalysis] on a
    connected screen) and every stream stop ([stopAnalysis]) sets the current
    prediction to null.  An event leaves the current prediction as it is or
    sets it to null, unless it is an inbound prediction message: that one
    sets the current prediction to the prediction received and leaves the
    analysis flag as it is, whatever its value. *)
Theorem C8_current_prediction_updates :
  (forall fps s, Index.currentPrediction (Index.startAnalysis true fps s) = None) /\
  (forall s, Index.currentPrediction (Index.stopAnalysis s) = None) /\
  (forall data time s,
      Index.switch (Index.msgType data) = Index.case_prediction ->
      Index.currentPrediction (Index.handleWebSocketMessage data time s)
        = Some (mkPrediction (d_predicted_class data) (d_confidence data) time) /\
      Index.analysisActive (Index.handleWebSocketMessage data time s)
        = Index.analysisActive s) /\
  (forall s e,
      Index.currentPrediction (Index.step s e) = Index.currentPrediction s \/
      Index.currentPrediction (Index.step s e) = None \/
      (exists ws data time,
          e = Index.WsMessage ws (Parsed data) time /\
          Index.switch (Index.msgType data) = Index.case_prediction /\
          Index.currentPrediction (Index.step s e)
            = Some (mkPrediction (d_predicted_class data) (d_confidence data) time) /\
          Index.analysisActive (Index.step s e) = Index.analysisActive s)).
Proof.
  split.
  { intros fps s. unfold Index.startAnalysis, Index.setTimeout, Index.send. cbn.
    match goal with |- context [if ?b then _ else _] => destruct b end; reflexivity. }
  split.
  { intros s. unfold Index.stopAnalysis, Index.stopVideoStream, Index.send. cbn.
    destruct (Index.captureIntervalRef s); cbn;
      match goal with |- context [if ?b then _ else _] => destruct b end; reflexivity. }
  split; [| exact index_step_prediction].
  intros data time s Hcase. unfold Index.handleWebSocketMessage.
  rewrite Hcase. split; reflexivity.
Qed.

(** A prediction arrives while the main screen is connected and idle. *)
Lemma C8_current_prediction_updates_witness :
  Index.currentPrediction
    (Index.handleWebSocketMessage (Scenario.prediction_msg "cavity") "10:00:01"
                                  Scenario.index_connected)
    = Some (mkPrediction (JStr "cavity") (JFloat "0.93") "10:00:01") /\
  Index.analysisActive
    (Index.handleWebSocketMessage (Scenario.prediction_msg "cavity") "10:00:01"
                                  Scenario.index_connected)
    = Index.analysisActive Scenario.index_connected.
Proof.
  apply (proj1 (proj2 (proj2 C8_current_prediction_updates))).
  vm_compute. reflexivity.
Defined.

(** The main screen, connected and idle, receives a prediction: it reaches
    a state whose current prediction is set while analysis is off. *)
Lemma C8_prediction_while_idle :
  Index.reachable Scenario.index_idle_with_prediction /\
  Index.analysisActive Scenario.index_idle_with_prediction = false /\
  Index.currentPrediction Scenario.index_idle_with_prediction
    = Some (mkPrediction (JStr "cavity") (JFloat "0.93") "10:00:01") /\
  Index.currentPrediction Scenario.index_idle_with_prediction <> None.
Proof.
  split.
  { unfold Scenario.index_idle_with_prediction. apply index_reachable_run. constructor. }
  conjs; vm_compute; congruence.
Qed.

(** ** Stopping *)

Lemma index_stopVideoStream_idempotent (s : Index.State) :
  Index.stopVideoStream (Index.stopVideoStream s) = Index.stopVideoStream s.
Proof.
  unfold Index.stopVideoStream. destruct s. cbn. split_matches; reflexivity.
Qed.

Lemma index_stopAnalysis_session (s : Index.State) :
  Index.session (Index.stopAnalysis s)
    = (false, Index.streamFPS s, Index.frameCountRef s, None, Index.chatHistory s).
Proof.
  unfold Index.stopAnalysis, Index.stopVideoStream, Index.send, Index.session. cbn.
  destruct (Index.captureIntervalRef s); cbn;
    match goal with |- context [if ?b then _ else _] => destruct b end; reflexivity.
Qed.

(** C9.  The stop button is the only caller of [stopAnalysis], and it is
    disabled while analysis is off: a stop received by an idle screen leaves
    the whole state, hence the session state, unchanged.  [stopAnalysis]
    itself, applied to an idle session, leaves the analysis flag, the target
    rate, the frame counter and the history as they are and sets the current
    prediction to null, so the session state is unchanged when the current
    prediction was null already.  Stopping the frame scheduler is
    idempotent: a second [stopVideoStream] changes nothing, and on a screen
    whose scheduler was never started it changes nothing at all.  A second
    [stopAnalysis] changes nothing but the list of sent messages, to which it
    adds one more stop message if the socket is open. *)
Theorem C9_stop_is_idempotent :
  (forall s, Index.analysisActive s = false -> Index.step s Index.PressStop = s) /\
  (forall s,
      Index.idle s ->
      Index.session (Index.stopAnalysis s)
        = (Index.analysisActive s, Index.streamFPS s, Index.frameCountRef s,
           None, Index.chatHistory s)) /\
  (forall s,
      Index.idle s -> Index.currentPrediction s = None ->
      Index.session (Index.stopAnalysis s) = Index.session s) /\
  (forall s, Index.stopVideoStream (Index.stopVideoStream s) = Index.stopVideoStream s) /\
  Index.stopVideoStream Index.initial = Index.initial /\
  (forall s,
      Index.stopAnalysis (Index.stopAnalysis s)
        = if Index.ws_is_open s
          then Index.send Index.stop_video_stream (Index.stopAnalysis s)
          else Index.stopAnalysis s).
Proof.
  split.
  { intros s H. cbn [Index.step]. rewrite H. reflexivity. }
  split.
  { intros s (Hactive & _ & _). rewrite index_stopAnalysis_session, Hactive. reflexivity. }
  split.
  { intros s (Hactive & _ & _) Hnone. rewrite index_stopAnalysis_session.
    unfold Index.session. rewrite Hactive, Hnone. reflexivity. }
  split; [exact index_stopVideoStream_idempotent |].
  split; [reflexivity |].
  intros s.
  destruct s as [a h t c st ic fps fc cam ws cnt iv ea stream last mounted socks fl tos out].
  destruct iv, ws as [n |];
    [destruct (nth_error socks n) as [[ | | | ] |] eqn:Hsock | |
     destruct (nth_error socks n) as [[ | | | ] |] eqn:Hsock | ];
    repeat (progress (index_cells; rewrite ?Hsock; cbv beta iota));
    reflexivity.
Qed.

(** The connected, idle screen of the examples: a stop leaves its session
    state as it is. *)
Lemma C9_stop_is_idempotent_witness :
  Index.step Scenario.index_connected Index.PressStop = Scenario.index_connected /\
  Index.session (Index.stopAnalysis Scenario.index_connected)
    = Index.session Scenario.index_connected.
Proof.
  destruct C9_stop_is_idempotent as (Hpress & _ & Hidle & _).
  split.
  - apply Hpress. vm_compute. reflexivity.
  - apply Hidle.
    + unfold Index.idle. conjs; vm_compute; reflexivity.
    + vm_compute. reflexivity.
Defined.

(** * Further properties *)

(** ** Class names as they are displayed *)

Ltac each_ascii c :=
  destruct c as [[|] [|] [|] [|] [|] [|] [|] [|]]; vm_compute; congruence.

Lemma lower_ascii_idempotent (c : ascii) : lower_ascii (lower_ascii c) = lower_ascii c.
Proof. each_ascii c. Qed.

Lemma upper_ascii_idempotent (c : ascii) :
  Render.upper_ascii (Render.upper_ascii c) = Render.upper_ascii c.
Proof. each_ascii c. Qed.

Lemma is_space_lower_ascii (c : ascii) :
  Render.is_space (lower_ascii c) = Render.is_space c.
Proof. each_ascii c. Qed.

Lemma is_word_upper_ascii (c : ascii) :
  Render.is_word (Render.upper_ascii c) = Render.is_word c.
Proof. each_ascii c. Qed.

Lemma underscore_lower_ascii (c : ascii) :
  Ascii.eqb (lower_ascii c) Render.underscore = Ascii.eqb c Render.underscore.
Proof. each_ascii c. Qed.

Lemma underscore_upper_ascii (c : ascii) :
  Ascii.eqb (Render.upper_ascii c) Render.underscore = Ascii.eqb c Render.underscore.
Proof. each_ascii c. Qed.

Lemma replace_underscores_clean (s : string) :
  Render.has_underscore (Render.replace_underscores s) = false.
Proof.
  induction s as [| c rest IH]; [reflexivity |].
  cbn [Render.replace_underscores Render.has_underscore]. rewrite IH.
  destruct (Ascii.eqb c Render.underscore) eqn:E; [reflexivity |].
  rewrite E. reflexivity.
Qed.

Lemma replace_underscores_fixed (s : string) :
  Render.has_underscore s = false -> Render.replace_underscores s = s.
Proof.
  induction s as [| c rest IH]; [reflexivity |].
  cbn [Render.replace_underscores Render.has_underscore]. intros H.
  apply orb_false_iff in H. destruct H as [Hc Hrest].
  rewrite Hc, IH by exact Hrest. reflexivity.
Qed.

Lemma capitalize_words_clean (s : string) (inside : bool) :
  Render.has_underscore (Render.capitalize_words inside s) = Render.has_underscore s.
Proof.
  revert inside. induction s as [| c rest IH]; intros inside; [reflexivity |].
  cbn [Render.capitalize_words].
  destruct inside; [destruct (Render.is_space c) | destruct (Render.is_word c)];
    cbn [Render.has_underscore];
    rewrite IH, ?underscore_lower_ascii, ?underscore_upper_ascii; reflexivity.
Qed.

Lemma capitalize_words_idempotent (s : string) (inside : bool) :
  Render.capitalize_words inside (Render.capitalize_words inside s)
    = Render.capitalize_words inside s.
Proof.
  revert inside. induction s as [| c rest IH]; intros inside; [reflexivity |].
  cbn [Render.capitalize_words].
  destruct inside.
  - destruct (Render.is_space c) eqn:E; cbn [Render.capitalize_words].
    + rewrite E, IH. reflexivity.
    + rewrite is_space_lower_ascii, E, lower_ascii_idempotent, IH. reflexivity.
  - destruct (Render.is_word c) eqn:E; cbn [Render.capitalize_words].
    + rewrite is_word_upper_ascii, E, upper_ascii_idempotent, IH. reflexivity.
    + rewrite E, IH. reflexivity.
Qed.

Lemma capitalize_words_length (s : string) (inside : bool) :
  String.length (Render.capitalize_words inside s) = String.length s.
Proof.
  revert inside. induction s as [| c rest IH]; intros inside; [reflexivity |].
  cbn [Render.capitalize_words].
  destruct inside; [destruct (Render.is_space c) | destruct (Render.is_word c)];
    cbn [String.length]; rewrite IH; reflexivity.
Qed.

Lemma replace_underscores_length (s : string) :
  String.length (Render.replace_underscores s) = String.length s.
Proof.
  induction s as [| c rest IH]; [reflexivity |].
  cbn [Render.replace_underscores String.length]. rewrite IH. reflexivity.
Qed.

(** X1.  [formatClassName] never leaves an underscore in a class name and
    keeps its length, and formatting a formatted name changes nothing. *)
Theorem X1_formatClassName_is_stable :
  forall className,
    Render.has_underscore (Render.formatClassName className) = false /\
    String.length (Render.formatClassName className) = String.length className /\
    Render.formatClassName (Render.formatClassName className)
      = Render.formatClassName className.
Proof.
  intros className. unfold Render.formatClassName.
  split; [| split].
  - rewrite capitalize_words_clean. apply replace_underscores_clean.
  - rewrite capitalize_words_length. apply replace_underscores_length.
  - rewrite (replace_underscores_fixed
               (Render.capitalize_words false (Render.replace_underscores className))).
    + apply capitalize_words_idempotent.
    + rewrite capitalize_words_clean. apply replace_underscores_clean.
Qed.

(** X2.  The label of the diagnosis tab, [predicted_class.replace(/_/g, ' ')],
    has the length of the class name and no underscore, and differs from
    the class name only where that has an underscore: a name without
    underscores is shown as it is. *)
Theorem X2_replace_underscores_only_underscores :
  forall predicted_class,
    Render.has_underscore (Render.replace_underscores predicted_class) = false /\
    String.length (Render.replace_underscores predicted_class)
      = String.length predicted_class /\
    (Render.has_underscore predicted_class = false ->
     Render.replace_underscores predicted_class = predicted_class).
Proof.
  intros predicted_class. split; [| split].
  - apply replace_underscores_clean.
  - apply replace_underscores_length.
  - apply replace_underscores_fixed.
Qed.

Lemma X2_replace_underscores_only_underscores_witness :
  Render.replace_underscores "Caries"%string = "Caries"%string.
Proof.
  apply (proj2 (proj2 (X2_replace_underscores_only_underscores "Caries"%string))).
  reflexivity.
Defined.

Example formatClassName_dental_caries :
  Render.formatClassName "dental_CARIES  x-ray"%string = "Dental Caries  X-ray"%string.
Proof. reflexivity. Qed.

(** ** Invariants of the main screen *)

Lemma index_invariant (P : Index.State -> Prop) :
  P Index.initial ->
  (forall s e, Index.reachable s -> P s -> P (Index.step s e)) ->
  forall s, Index.reachable s -> P s.
Proof. intros Hinit Hstep s H. induction H; auto. Qed.

Lemma modal_invariant (P : Modal.State -> Prop) :
  P Modal.initial ->
  (forall s e, Modal.reachable s -> P s -> P (Modal.step s e)) ->
  forall s, Modal.reachable s -> P s.
Proof. intros Hinit Hstep s H. induction H; auto. Qed.

Lemma toggleStreamFPS_rate (fps : Z) (active : bool) (s : Index.State) :
  Index.streamFPS (Index.toggleStreamFPS fps active s) = next_fps fps.
Proof.
  unfold Index.toggleStreamFPS, next_fps, Index.fpsOptions, indexOf, Index.setTimeout,
    Index.stopVideoStream.
  cbn [indexOf_from length].
  destruct (Z.eqb fps 3); [destruct active; split_matches; reflexivity |].
  destruct (Z.eqb fps 5); [destruct active; split_matches; reflexivity |].
  destruct (Z.eqb fps 8); [destruct active; split_matches; reflexivity |].
  destruct (Z.eqb fps 10); destruct active; split_matches; reflexivity.
Qed.

Lemma index_step_streamFPS (s : Index.State) (e : Index.Event) :
  Index.streamFPS (Index.step s e)
    = match e with
      | Index.PressFps => next_fps (Index.streamFPS s)
      | _ => Index.streamFPS s
      end.
Proof.
  destruct e; try apply toggleStreamFPS_rate.
  all: index_handlers; split_matches; reflexivity.
Qed.

(** X3.  The target rate of the main screen is one of 3, 5, 8 and 10 in
    every state the screen can reach; the rate button moves it along the
    cycle 3, 5, 8, 10, 3, and no other event changes it. *)
Theorem X3_streamFPS_cycles_through_options :
  (forall s, Index.reachable s -> In (Index.streamFPS s) Index.fpsOptions) /\
  (forall s e,
      Index.streamFPS (Index.step s e)
        = match e with
          | Index.PressFps => next_fps (Index.streamFPS s)
          | _ => Index.streamFPS s
          end) /\
  next_fps 3 = 5 /\ next_fps 5 = 8 /\ next_fps 8 = 10 /\ next_fps 10 = 3.
Proof.
  split; [| split; [exact index_step_streamFPS | repeat split]].
  apply index_invariant.
  - cbn. auto.
  - intros s e _ H. rewrite index_step_streamFPS.
    destruct e; try exact H.
    unfold next_fps.
    destruct (Z.eqb (Index.streamFPS s) 3); [cbn; auto |].
    destruct (Z.eqb (Index.streamFPS s) 5); [cbn; auto |].
    destruct (Z.eqb (Index.streamFPS s) 8); cbn; auto.
Qed.

Lemma X3_streamFPS_cycles_through_options_witness :
  In (Index.streamFPS Session.index_rate_pressed) Index.fpsOptions.
Proof.
  apply (proj1 X3_streamFPS_cycles_through_options).
  unfold Session.index_rate_pressed, Scenario.index_streaming, Scenario.index_connected.
  constructor. repeat apply index_reachable_run. constructor.
Defined.

Lemma index_step_streaming_flag (s : Index.State) (e : Index.Event) :
  Index.isStreamingRef s = index_timer_armed s ->
  Index.isStreamingRef (Index.step s e) = index_timer_armed (Index.step s e).
Proof.
  unfold index_timer_armed. intros H.
  destruct e; index_handlers; split_matches; cbn in *; try congruence.
  all: repeat match goal with
         | E : ?x = _, H' : context [match ?x with _ => _ end] |- _ => rewrite E in H'
         end; congruence.
Qed.

(** X4.  On the main screen the streaming flag and the capture timer always
    agree: in every reachable state [isStreamingRef] is true exactly when a
    repeating capture timer is armed. *)
Theorem X4_streaming_flag_matches_timer :
  forall s, Index.reachable s -> Index.isStreamingRef s = index_timer_armed s.
Proof.
  apply index_invariant.
  - reflexivity.
  - intros s e _. apply index_step_streaming_flag.
Qed.

Lemma X4_streaming_flag_matches_timer_witness :
  Index.isStreamingRef Scenario.index_closed = index_timer_armed Scenario.index_closed.
Proof.
  apply X4_streaming_flag_matches_timer.
  unfold Scenario.index_closed, Scenario.index_streaming, Scenario.index_connected.
  constructor. repeat apply index_reachable_run. constructor.
Defined.

Lemma Forall_remove_nth {A : Type} (P : A -> Prop) (l : list A) (i : nat) :
  Forall P l -> Forall P (remove_nth i l).
Proof.
  unfold remove_nth. intros H. revert i.
  induction H as [| x l Hx Hl IH]; intros [| i]; cbn; auto.
Qed.

Lemma Forall_snoc {A : Type} (P : A -> Prop) (l : list A) (x : A) :
  Forall P l -> P x -> Forall P (l ++ [x]).
Proof. intros Hl Hx. apply Forall_app. split; [exact Hl | now constructor]. Qed.

Lemma Forall_nth_error {A : Type} (P : A -> Prop) (l : list A) (i : nat) (x : A) :
  Forall P l -> nth_error l i = Some x -> P x.
Proof.
  intros Hl Hx. apply nth_error_In in Hx. rewrite Forall_forall in Hl. auto.
Qed.

Lemma index_startAnalysis_timeouts (c : bool) (fps : Z) (s : Index.State) :
  Index.timeouts (Index.startAnalysis c fps s)
    = Index.timeouts s
        ++ [Index.mkTimeout (if c then Index.DelayedStartVideoStream fps
                             else Index.RetryStartAnalysis c fps)
                            (if c then 100 else 1000)].
Proof.
  unfold Index.startAnalysis, Index.setTimeout, Index.send, Index.connectWebSocket.
  destruct c; cbn; [| reflexivity].
  match goal with |- context [if ?b then _ else _] => destruct b end; reflexivity.
Qed.

Lemma index_step_retries (s : Index.State) (e : Index.Event) :
  Forall index_retry_disconnected (Index.timeouts s) ->
  Forall index_retry_disconnected (Index.timeouts (Index.step s e)).
Proof.
  intros H. destruct e.
  8: { cbn [Index.step]. destruct (Index.analysisActive s); [exact H |].
       rewrite index_startAnalysis_timeouts. apply Forall_snoc; [exact H |].
       unfold index_retry_disconnected. destruct (Index.isConnected s) eqn:E; cbn; auto. }
  14: { cbn [Index.step].
        destruct (nth_error (Index.timeouts s) i) as [t |] eqn:Ht; [| exact H].
        pose proof (Forall_nth_error _ _ _ _ H Ht) as Hc.
        pose proof (Forall_remove_nth _ _ i H) as Hrest.
        unfold index_retry_disconnected in Hc.
        destruct (Index.callback t) as [c fps | fps | fps newFPS]; cbn [Index.run_callback].
        - subst c. rewrite index_startAnalysis_timeouts. apply Forall_snoc; cbn; auto.
        - unfold Index.startVideoStream. split_matches; exact Hrest.
        - unfold Index.startVideoStream. split_matches; exact Hrest. }
  all: index_handlers; split_matches; cbn; try exact H.
  all: apply Forall_snoc; cbn; auto.
Qed.

Lemma index_retries_disconnected (s : Index.State) :
  Index.reachable s -> Forall index_retry_disconnected (Index.timeouts s).
Proof.
  revert s. apply index_invariant.
  - constructor.
  - intros s e _. apply index_step_retries.
Qed.

Lemma modal_startAnalysis_false (s : Modal.State) :
  Modal.startAnalysis false s
    = Modal.setTimeout (Modal.RetryStartAnalysis false) 1000 (Modal.connectWebSocket s).
Proof. reflexivity. Qed.

Lemma modal_step_retries (s : Modal.State) (e : Modal.Event) :
  Forall modal_retry_disconnected (Modal.timeouts s) ->
  Forall modal_retry_disconnected (Modal.timeouts (Modal.step s e)).
Proof.
  intros H. destruct e.
  8: { cbn [Modal.step]. destruct (Modal.analysisActive s); [exact H |].
       destruct (Modal.isConnected s).
       - unfold Modal.startAnalysis, Modal.setInterval, Modal.transmit. cbn.
         split_matches; exact H.
       - rewrite modal_startAnalysis_false. cbn. apply Forall_snoc; [exact H | reflexivity]. }
  13: { cbn [Modal.step].
        destruct (nth_error (Modal.timeouts s) i) as [t |] eqn:Ht; [| exact H].
        pose proof (Forall_nth_error _ _ _ _ H Ht) as Hc.
        pose proof (Forall_remove_nth _ _ i H) as Hrest.
        unfold modal_retry_disconnected in Hc.
        destruct (Modal.callback t) as [c]; cbn [Modal.run_callback]. subst c.
        rewrite modal_startAnalysis_false. cbn. apply Forall_snoc; [exact Hrest | reflexivity]. }
  all: modal_handlers; split_matches; cbn; exact H.
Qed.

Lemma modal_retries_disconnected (s : Modal.State) :
  Modal.reachable s -> Forall modal_retry_disconnected (Modal.timeouts s).
Proof.
  revert s. apply modal_invariant.
  - constructor.
  - intros s e _. apply modal_step_retries.
Qed.

(** X5.  On both screens analysis is switched on by one event only: the
    start button pressed while [isConnected] is true.  In particular the
    retry that [startAnalysis] schedules when it finds the screen
    disconnected never switches analysis on, whatever the connection has
    become when it fires. *)
Theorem X5_analysis_starts_only_when_connected :
  (forall s e,
      Index.reachable s ->
      Index.analysisActive s = false ->
      Index.analysisActive (Index.step s e) = true ->
      e = Index.PressStart /\ Index.isConnected s = true) /\
  (forall s e,
      Modal.reachable s ->
      Modal.analysisActive s = false ->
      Modal.analysisActive (Modal.step s e) = true ->
      e = Modal.PressStart /\ Modal.isConnected s = true).
Proof.
  split.
  - intros s e Hreach Hoff Hon.
    pose proof (index_retries_disconnected s Hreach) as Hretries.
    destruct e.
    8: { split; [reflexivity |]. cbn [Index.step] in Hon. rewrite Hoff in Hon.
         destruct (Index.isConnected s); [reflexivity |].
         unfold Index.startAnalysis in Hon. cbn in Hon. congruence. }
    14: { exfalso. cbn [Index.step] in Hon.
          destruct (nth_error (Index.timeouts s) i) as [t |] eqn:Ht; [| congruence].
          pose proof (Forall_nth_error _ _ _ _ Hretries Ht) as Hc.
          unfold index_retry_disconnected in Hc.
          destruct (Index.callback t) as [c fps | fps | fps newFPS];
            cbn [Index.run_callback] in Hon.
          - subst c. unfold Index.startAnalysis in Hon. cbn in Hon. congruence.
          - unfold Index.startVideoStream in Hon. revert Hon.
            split_matches; cbn; congruence.
          - unfold Index.startVideoStream in Hon. revert Hon.
            split_matches; cbn; congruence. }
    all: exfalso; revert Hon; index_handlers; split_matches; cbn; congruence.
  - intros s e Hreach Hoff Hon.
    pose proof (modal_retries_disconnected s Hreach) as Hretries.
    destruct e.
    8: { split; [reflexivity |]. cbn [Modal.step] in Hon. rewrite Hoff in Hon.
         destruct (Modal.isConnected s); [reflexivity |].
         rewrite modal_startAnalysis_false in Hon. cbn in Hon. congruence. }
    13: { exfalso. cbn [Modal.step] in Hon.
          destruct (nth_error (Modal.timeouts s) i) as [t |] eqn:Ht; [| congruence].
          pose proof (Forall_nth_error _ _ _ _ Hretries Ht) as Hc.
          unfold modal_retry_disconnected in Hc.
          destruct (Modal.callback t) as [c]; cbn [Modal.run_callback] in Hon. subst c.
          rewrite modal_startAnalysis_false in Hon. cbn in Hon. congruence. }
    all: exfalso; revert Hon; modal_handlers; split_matches; cbn; congruence.
Qed.

Lemma X5_analysis_starts_only_when_connected_witness :
  (Index.PressStart = Index.PressStart /\ Index.isConnected Scenario.index_connected = true) /\
  (Modal.PressStart = Modal.PressStart /\
   Modal.isConnected (Modal.step Scenario.modal_four_frames Modal.PressStop) = true).
Proof.
  split.
  - apply (proj1 X5_analysis_starts_only_when_connected).
    + unfold Scenario.index_connected. apply index_reachable_run. constructor.
    + vm_compute. reflexivity.
    + vm_compute. reflexivity.
  - apply (proj2 X5_analysis_starts_only_when_connected).
    + constructor. unfold Scenario.modal_four_frames, Scenario.modal_streaming.
      repeat apply modal_reachable_run. constructor.
    + vm_compute. reflexivity.
    + vm_compute. reflexivity.
Defined.

(** X6.  When a pending retry of [startAnalysis] fires on the main screen
    it does what it did when it was scheduled: it opens one more socket,
    makes it the current one and schedules the next retry 1000 ms later.
    It leaves [analysisActive] and [isConnected] as they are and sends
    nothing, also when the connection has opened in the meantime. *)
Theorem X6_retry_reconnects_again :
  forall s i t c fps,
    Index.reachable s ->
    nth_error (Index.timeouts s) i = Some t ->
    Index.callback t = Index.RetryStartAnalysis c fps ->
    let s' := Index.step s (Index.TimeoutFires i) in
    Index.sockets s' = Index.sockets s ++ [CONNECTING] /\
    Index.wsRef s' = Some (length (Index.sockets s)) /\
    Index.timeouts s'
      = remove_nth i (Index.timeouts s)
          ++ [Index.mkTimeout (Index.RetryStartAnalysis false fps) 1000] /\
    Index.analysisActive s' = Index.analysisActive s /\
    Index.isConnected s' = Index.isConnected s /\
    Index.sent s' = Index.sent s.
Proof.
  intros s i t c fps Hreach Ht Hcb s'. subst s'.
  pose proof (Forall_nth_error _ _ _ _ (index_retries_disconnected s Hreach) Ht) as Hc.
  unfold index_retry_disconnected in Hc. rewrite Hcb in Hc. subst c.
  cbn [Index.step]. rewrite Ht, Hcb. cbn [Index.run_callback].
  repeat split.
Qed.

Lemma X6_retry_reconnects_again_witness :
  Index.isConnected Session.index_waiting_connected = true /\
  Index.sockets (Index.step Session.index_waiting_connected (Index.TimeoutFires 0))
    = Index.sockets Session.index_waiting_connected ++ [CONNECTING] /\
  Index.analysisActive (Index.step Session.index_waiting_connected (Index.TimeoutFires 0))
    = Index.analysisActive Session.index_waiting_connected.
Proof.
  split; [vm_compute; reflexivity |].
  assert (Hreach : Index.reachable Session.index_waiting_connected).
  { unfold Session.index_waiting_connected, Session.index_waiting.
    constructor. apply index_reachable_run. constructor. }
  destruct (X6_retry_reconnects_again Session.index_waiting_connected 0
              (Index.mkTimeout (Index.RetryStartAnalysis false 5) 1000) false 5
              Hreach)
    as (Hsockets & _ & _ & Hactive & _).
  - vm_compute. reflexivity.
  - reflexivity.
  - exact (conj Hsockets Hactive).
Defined.

Lemma index_step_timeouts (s : Index.State) (e : Index.Event) :
  (forall i, e <> Index.TimeoutFires i) ->
  exists new, Index.timeouts (Index.step s e) = Index.timeouts s ++ new.
Proof.
  intros Hfire. destruct e; try (exfalso; eapply Hfire; reflexivity).
  all: index_handlers; split_matches; cbn.
  all: try (exists []; symmetry; apply app_nil_r).
  all: eexists; reflexivity.
Qed.

Lemma modal_step_timeouts (s : Modal.State) (e : Modal.Event) :
  (forall i, e <> Modal.TimeoutFires i) ->
  exists new, Modal.timeouts (Modal.step s e) = Modal.timeouts s ++ new.
Proof.
  intros Hfire. destruct e; try (exfalso; eapply Hfire; reflexivity).
  all: modal_handlers; split_matches; cbn.
  all: try (exists []; symmetry; apply app_nil_r).
  all: eexists; reflexivity.
Qed.

(** X7.  Neither screen ever cancels a pending timeout: stopping,
    disconnecting or unmounting included, every event other than the firing
    of a timeout keeps the pending ones, in their order, and at most adds
    new ones after them. *)
Theorem X7_timeouts_are_never_cancelled :
  (forall s e,
      (forall i, e <> Index.TimeoutFires i) ->
      exists new, Index.timeouts (Index.step s e) = Index.timeouts s ++ new) /\
  (forall s e,
      (forall i, e <> Modal.TimeoutFires i) ->
      exists new, Modal.timeouts (Modal.step s e) = Modal.timeouts s ++ new).
Proof. split; [exact index_step_timeouts | exact modal_step_timeouts]. Qed.

Lemma X7_timeouts_are_never_cancelled_witness :
  (exists new, Index.timeouts (Index.step Session.index_waiting Index.Unmount)
               = Index.timeouts Session.index_waiting ++ new) /\
  (exists new, Modal.timeouts (Modal.step Scenario.modal_streaming Modal.PressStop)
               = Modal.timeouts Scenario.modal_streaming ++ new).
Proof.
  split.
  - apply (proj1 X7_timeouts_are_never_cancelled). intros i. discriminate.
  - apply (proj2 X7_timeouts_are_never_cancelled). intros i. discriminate.
Defined.

Lemma index_stopAnalysis_ready (s : Index.State) :
  Index.cameraRef (Index.stopAnalysis s) = Index.cameraRef s /\
  Index.ws_is_open (Index.stopAnalysis s) = Index.ws_is_open s /\
  Index.analysisActive (Index.stopAnalysis s) = false.
Proof.
  unfold Index.stopAnalysis, Index.stopVideoStream, Index.send, Index.ws_is_open,
    Index.readyState.
  destruct s as [a h t c st ic fps fc cam ws cnt iv ea stream last mounted socks fl tos out].
  destruct iv, ws as [n |];
    [destruct (nth_error socks n) as [[ | | | ] |] eqn:Hsock | |
     destruct (nth_error socks n) as [[ | | | ] |] eqn:Hsock | ];
    repeat (progress (index_cells; rewrite ?Hsock; cbv beta iota));
    repeat split.
Qed.

(** X8.  [stopAnalysis] does not cancel the delayed [startVideoStream] that
    [startAnalysis] schedules.  When that callback runs after a stop, with
    the camera present and the socket open, it starts the frame scheduler
    although analysis is off: the streaming flag is set, the frame counter
    is 0 and the capture timer is armed at the rate of the start. *)
Theorem X8_delayed_start_survives_stop :
  forall s fps,
    Index.cameraRef s = true ->
    Index.ws_is_open s = true ->
    let s' := Index.run_callback (Index.DelayedStartVideoStream fps) (Index.stopAnalysis s) in
    Index.timeouts (Index.stopAnalysis s) = Index.timeouts s /\
    Index.analysisActive s' = false /\
    Index.isStreamingRef s' = true /\
    Index.frameCountRef s' = 0 /\
    Index.captureIntervalRef s'
      = Some (Index.mkInterval fps (Index.frameInterval fps) (Index.frameInterval fps / 2)%Q).
Proof.
  intros s fps Hcam Hws s'. subst s'.
  destruct (index_stopAnalysis_ready s) as (Hcam' & Hws' & Hoff).
  rewrite Hcam in Hcam'. rewrite Hws in Hws'.
  split.
  { unfold Index.stopAnalysis, Index.stopVideoStream, Index.send. cbn.
    split_matches; reflexivity. }
  cbn [Index.run_callback]. unfold Index.startVideoStream.
  rewrite Hcam', Hws'. cbn. rewrite Hoff. repeat split.
Qed.

Lemma X8_delayed_start_survives_stop_witness :
  Index.analysisActive
    (Index.run_callback (Index.DelayedStartVideoStream 5)
                        (Index.stopAnalysis Scenario.index_streaming)) = false /\
  Index.isStreamingRef
    (Index.run_callback (Index.DelayedStartVideoStream 5)
                        (Index.stopAnalysis Scenario.index_streaming)) = true.
Proof.
  destruct (X8_delayed_start_survives_stop Scenario.index_streaming 5)
    as (_ & Hoff & Hon & _).
  - vm_compute. reflexivity.
  - vm_compute. reflexivity.
  - exact (conj Hoff Hon).
Defined.

Lemma index_newFPS (fps : Z) :
  nth (Z.to_nat (Z.rem (indexOf fps Index.fpsOptions + 1)
                       (Z.of_nat (length Index.fpsOptions))))
      Index.fpsOptions 0
  = next_fps fps.
Proof.
  unfold next_fps, Index.fpsOptions, indexOf. cbn [indexOf_from length].
  destruct (Z.eqb fps 3); [reflexivity |].
  destruct (Z.eqb fps 5); [reflexivity |].
  destruct (Z.eqb fps 8); [reflexivity |].
  destruct (Z.eqb fps 10); reflexivity.
Qed.

Lemma index_toggle_while_active (fps : Z) (s : Index.State) :
  let s1 := Index.toggleStreamFPS fps true s in
  Index.timeouts s1
    = Index.timeouts s ++ [Index.mkTimeout (Index.RestartVideoStream fps (next_fps fps)) 200] /\
  Index.cameraRef s1 = Index.cameraRef s /\
  Index.ws_is_open s1 = Index.ws_is_open s /\
  Index.streamFPS s1 = next_fps fps /\
  Index.isStreamingRef s1 = false /\
  Index.captureIntervalRef s1 = None /\
  Index.analysisActive s1 = Index.analysisActive s /\
  Index.sent s1 = Index.sent s.
Proof.
  unfold Index.toggleStreamFPS. cbv zeta. rewrite index_newFPS.
  destruct s as [a h t c st ic rate fc cam ws cnt iv ea stream last mounted socks fl tos out].
  destruct iv; index_cells; repeat split.
Qed.

Lemma nth_error_snoc {A : Type} (l : list A) (x : A) :
  nth_error (l ++ [x]) (length l) = Some x.
Proof. rewrite nth_error_app2 by lia. rewrite Nat.sub_diag. reflexivity. Qed.

(** X9.  Changing the rate while the main screen streams restarts the frame
    scheduler at the rate it had before.  The rate button sets the target
    rate to the next option and stops the scheduler; when the restart it
    schedules runs 200 ms later (camera present, socket open), the target
    rate and the status line show the new rate, while the capture timer is
    armed with the interval of the old one. *)
Theorem X9_rate_change_restarts_at_old_rate :
  forall s,
    Index.analysisActive s = true ->
    Index.cameraRef s = true ->
    Index.ws_is_open s = true ->
    let pressed := Index.step s Index.PressFps in
    let restarted := Index.step pressed (Index.TimeoutFires (length (Index.timeouts s))) in
    Index.isStreamingRef pressed = false /\
    Index.captureIntervalRef pressed = None /\
    Index.streamFPS restarted = next_fps (Index.streamFPS s) /\
    Index.status restarted
      = ("🎥 Streaming Video (" ++ string_of_Z (next_fps (Index.streamFPS s))
         ++ " FPS)...")%string /\
    Index.isStreamingRef restarted = true /\
    Index.captureIntervalRef restarted
      = Some (Index.mkInterval (Index.streamFPS s)
                               (Index.frameInterval (Index.streamFPS s))
                               (Index.frameInterval (Index.streamFPS s) / 2)%Q).
Proof.
  intros s Hactive Hcam Hws pressed restarted.
  assert (Hpressed : pressed = Index.toggleStreamFPS (Index.streamFPS s) true s).
  { subst pressed. cbn [Index.step]. rewrite Hactive. reflexivity. }
  destruct (index_toggle_while_active (Index.streamFPS s) s)
    as (Htimeouts & Hcam' & Hws' & Hrate & Hflag & Htimer & _).
  cbv zeta in Htimeouts, Hcam', Hws', Hrate, Hflag, Htimer.
  rewrite <- Hpressed in Htimeouts, Hcam', Hws', Hrate, Hflag, Htimer.
  rewrite Hcam in Hcam'. rewrite Hws in Hws'.
  subst restarted. clearbody pressed. clear Hpressed.
  split; [exact Hflag |]. split; [exact Htimer |].
  cbn [Index.step]. rewrite Htimeouts, nth_error_snoc.
  cbn [Index.callback Index.run_callback]. unfold Index.startVideoStream.
  change (Index.cameraRef (Index.set_timeouts ?t pressed)) with (Index.cameraRef pressed).
  change (Index.ws_is_open (Index.set_timeouts ?t pressed)) with (Index.ws_is_open pressed).
  rewrite Hcam', Hws'. cbn. rewrite Hrate. repeat split.
Qed.

Lemma X9_rate_change_restarts_at_old_rate_witness :
  Index.streamFPS
    (Index.step (Index.step Scenario.index_streaming Index.PressFps)
                (Index.TimeoutFires (length (Index.timeouts Scenario.index_streaming))))
    = next_fps (Index.streamFPS Scenario.index_streaming) /\
  Index.captureIntervalRef
    (Index.step (Index.step Scenario.index_streaming Index.PressFps)
                (Index.TimeoutFires (length (Index.timeouts Scenario.index_streaming))))
    = Some (Index.mkInterval (Index.streamFPS Scenario.index_streaming)
              (Index.frameInterval (Index.streamFPS Scenario.index_streaming))
              (Index.frameInterval (Index.streamFPS Scenario.index_streaming) / 2)%Q).
Proof.
  destruct (X9_rate_change_restarts_at_old_rate Scenario.index_streaming)
    as (_ & _ & Hrate & _ & _ & Htimer).
  - vm_compute. reflexivity.
  - vm_compute. reflexivity.
  - vm_compute. reflexivity.
  - exact (conj Hrate Htimer).
Defined.

(** ** Teardown *)

Lemma index_disconnect_effect (s : Index.State) :
  let d := Index.disconnectWebSocket s in
  Index.wsRef d = None /\
  Index.isStreamingRef d = false /\
  Index.captureIntervalRef d = None /\
  Index.lastFrameTimeRef d = 0 /\
  Index.sent d = Index.sent s /\
  Index.timeouts d = Index.timeouts s /\
  Index.isMountedRef d = Index.isMountedRef s /\
  Index.analysisActive d = Index.analysisActive s /\
  Index.sockets d
    = match Index.wsRef s with
      | Some i =>
          match nth_error (Index.sockets s) i with
          | Some r => set_nth i (Index.close r) (Index.sockets s)
          | None => Index.sockets s
          end
      | None => Index.sockets s
      end.
Proof.
  unfold Index.disconnectWebSocket.
  destruct s as [a h t c st ic rate fc cam ws cnt iv ea stream last mounted socks fl tos out].
  cbn [Index.wsRef Index.sockets].
  destruct ws as [n |]; [destruct (nth_error socks n) |];
    destruct iv; index_cells; repeat split.
Qed.

Lemma index_resume_closed (c : Index.InFlight) (photo : CaptureResult) (s : Index.State) :
  Index.ws_is_open s = false -> Index.captureFrame_resume c photo s = s.
Proof.
  intros H. unfold Index.captureFrame_resume. rewrite H, andb_false_r.
  destruct photo; reflexivity.
Qed.

Lemma index_disconnect_idempotent (s : Index.State) :
  Index.disconnectWebSocket (Index.disconnectWebSocket s) = Index.disconnectWebSocket s.
Proof.
  unfold Index.disconnectWebSocket.
  destruct s as [a h t c st ic rate fc cam ws cnt iv ea stream last mounted socks fl tos out].
  cbn [Index.wsRef Index.sockets].
  destruct ws as [n |]; [destruct (nth_error socks n) |];
    destruct iv; index_cells; reflexivity.
Qed.

(** X10.  Unmounting the main screen tears the stream down silently: the
    socket reference is dropped after the socket was told to close, the
    liveness flag, the streaming flag and the capture timer are cleared, and
    no stop message is sent.  Afterwards a tick does nothing, and a capture
    that was in flight completes without counting a frame, sending anything
    or touching the status; disconnecting once more changes nothing. *)
Theorem X10_unmount_is_silent_and_final :
  forall s,
    let u := Index.step s Index.Unmount in
    Index.wsRef u = None /\
    Index.isMountedRef u = false /\
    Index.isStreamingRef u = false /\
    Index.captureIntervalRef u = None /\
    Index.sent u = Index.sent s /\
    (forall i r, Index.wsRef s = Some i -> nth_error (Index.sockets s) i = Some r ->
                 Index.sockets u = set_nth i (Index.close r) (Index.sockets s)) /\
    (forall now, Index.step u (Index.Tick now) = u) /\
    (forall i photo,
        Index.step u (Index.CaptureDone i photo) = u \/
        Index.step u (Index.CaptureDone i photo)
          = Index.set_inflight (remove_nth i (Index.inflight u)) u) /\
    Index.disconnectWebSocket u = u.
Proof.
  intros s u. subst u. cbn [Index.step].
  destruct (index_disconnect_effect (Index.set_isMountedRef false s))
    as (Hws & Hflag & Htimer & _ & Hsent & _ & Hmounted & _ & Hsockets).
  cbv zeta in *.
  set (u := Index.disconnectWebSocket (Index.set_isMountedRef false s)) in *.
  split; [exact Hws |]. split; [exact Hmounted |]. split; [exact Hflag |].
  split; [exact Htimer |]. split; [exact Hsent |].
  split.
  { intros i r Hi Hr. rewrite Hsockets.
    change (Index.wsRef (Index.set_isMountedRef false s)) with (Index.wsRef s).
    change (Index.sockets (Index.set_isMountedRef false s)) with (Index.sockets s).
    rewrite Hi, Hr. reflexivity. }
  split.
  { intros now. cbn [Index.step]. rewrite Htimer. reflexivity. }
  split.
  { intros i photo. cbn [Index.step].
    destruct (nth_error (Index.inflight u) i) as [c |]; [right | now left].
    apply index_resume_closed. unfold Index.ws_is_open, Index.readyState.
    change (Index.wsRef (Index.set_inflight ?f u)) with (Index.wsRef u).
    rewrite Hws. reflexivity. }
  apply index_disconnect_idempotent.
Qed.

Lemma X10_unmount_is_silent_and_final_witness :
  Index.sockets (Index.step Scenario.index_streaming Index.Unmount)
    = set_nth 0 (Index.close OPEN) (Index.sockets Scenario.index_streaming).
Proof.
  destruct (X10_unmount_is_silent_and_final Scenario.index_streaming)
    as (_ & _ & _ & _ & _ & Hsockets & _).
  apply Hsockets; vm_compute; reflexivity.
Defined.

(** ** Counters *)

Lemma count_predictions_app (h k : list ChatMessage) :
  count_predictions (h ++ k) = count_predictions h + count_predictions k.
Proof.
  induction h as [| [p | m] h IH]; cbn [app count_predictions]; lia.
Qed.

Lemma count_predictions_nonneg (h : list ChatMessage) : 0 <= count_predictions h.
Proof. induction h as [| [p | m] h IH]; cbn [count_predictions]; lia. Qed.

Lemma count_predictions_skipn (n : nat) (h : list ChatMessage) :
  count_predictions (skipn n h) <= count_predictions h.
Proof.
  revert n. induction h as [| x h IH]; intros [| n]; cbn [skipn]; try lia.
  specialize (IH n). destruct x; cbn [count_predictions]; lia.
Qed.

Lemma index_step_predictions (s : Index.State) (e : Index.Event) :
  count_predictions (Index.chatHistory s) <= Index.totalPredictions s ->
  count_predictions (Index.chatHistory (Index.step s e))
    <= Index.totalPredictions (Index.step s e).
Proof.
  intros H. destruct e; index_handlers; split_matches; cbn; try exact H; try lia.
  all: rewrite count_predictions_app; cbn [count_predictions]; unfold slice_last;
    match goal with
    | |- context [skipn ?n ?h] => pose proof (count_predictions_skipn n h)
    end; lia.
Qed.

Lemma modal_step_predictions (s : Modal.State) (e : Modal.Event) :
  count_predictions (Modal.chatHistory s) <= Modal.totalPredictions s ->
  count_predictions (Modal.chatHistory (Modal.step s e))
    <= Modal.totalPredictions (Modal.step s e).
Proof.
  intros H. destruct e; modal_handlers; split_matches; cbn; try exact H; try lia.
  all: repeat match goal with
         | E : Some _ = Some _ |- _ => injection E as <-
         | E : None = Some _ |- _ => discriminate E
         end; cbn; try exact H.
  all: rewrite count_predictions_app; cbn [count_predictions]; unfold slice_last;
    match goal with
    | |- context [skipn ?n ?h] => pose proof (count_predictions_skipn n h)
    end; lia.
Qed.

(** X11.  On both screens the prediction counter never falls behind the
    history: in every reachable state the number of predictions shown in
    the history is at most [totalPredictions] (the counter also counts the
    predictions that were evicted, and both are reset together). *)
Theorem X11_counter_covers_history :
  (forall s, Index.reachable s ->
             count_predictions (Index.chatHistory s) <= Index.totalPredictions s) /\
  (forall s, Modal.reachable s ->
             count_predictions (Modal.chatHistory s) <= Modal.totalPredictions s).
Proof.
  split.
  - apply index_invariant; [cbn; lia |]. intros s e _. apply index_step_predictions.
  - apply modal_invariant; [cbn; lia |]. intros s e _. apply modal_step_predictions.
Qed.

Lemma X11_counter_covers_history_witness :
  count_predictions (Index.chatHistory Scenario.index_idle_with_prediction)
    <= Index.totalPredictions Scenario.index_idle_with_prediction /\
  count_predictions (Modal.chatHistory Scenario.modal_error_received)
    <= Modal.totalPredictions Scenario.modal_error_received.
Proof.
  split.
  - apply (proj1 X11_counter_covers_history).
    unfold Scenario.index_idle_with_prediction. apply index_reachable_run. constructor.
  - apply (proj2 X11_counter_covers_history).
    unfold Scenario.modal_error_received, Scenario.modal_streaming.
    constructor. apply modal_reachable_run. constructor.
Defined.

(** ** What is transmitted *)

Lemma multiple_of_is_large (n k : Z) :
  0 < k -> 1 <= n -> Z.rem n k = 0 -> k <= n.
Proof.
  intros Hk Hn Hrem. rewrite Z.rem_mod_nonneg in Hrem by lia.
  apply Z.mod_divide in Hrem; [| lia].
  destruct Hrem as [q Hq]. assert (0 < q) by nia. nia.
Qed.

Lemma index_step_numbering (s : Index.State) (e : Index.Event) :
  0 <= Index.frameCountRef s /\ Forall index_well_numbered (Index.sent s) ->
  0 <= Index.frameCountRef (Index.step s e) /\
  Forall index_well_numbered (Index.sent (Index.step s e)).
Proof.
  intros [Hcount Hsent]. destruct e as [ | | | | | | | | | | | | | i photo | ].
  14: {
    cbn [Index.step].
    destruct (nth_error (Index.inflight s) i) as [c |]; [| now split].
    rewrite index_resume_sent, index_resume_frameCount.
    change (Index.ws_is_open (Index.set_inflight (remove_nth i (Index.inflight s)) s))
      with (Index.ws_is_open s).
    change (Index.sent (Index.set_inflight (remove_nth i (Index.inflight s)) s))
      with (Index.sent s).
    change (Index.frameCountRef (Index.set_inflight (remove_nth i (Index.inflight s)) s))
      with (Index.frameCountRef s).
    destruct photo as [base64 width height | |]; try (now split).
    destruct (has_base64 (Photo base64 width height) && Index.ws_is_open s)%bool;
      [| now split].
    split; [lia |]. apply Forall_app. split; [exact Hsent |].
    constructor; [cbn; lia |].
    destruct (Z.rem (Index.frameCountRef s + 1) 10 =? 0) eqn:Hten; constructor; [| constructor].
    apply Z.eqb_eq in Hten. cbn. split; [| exact Hten].
    apply multiple_of_is_large; [lia | lia | exact Hten]. }
  all: index_handlers; split_matches; cbn; split; try assumption; try lia.
  all: apply Forall_snoc; [assumption | exact I].
Qed.

Lemma modal_step_numbering (s : Modal.State) (e : Modal.Event) :
  0 <= Modal.frameCountRef s /\ Forall modal_well_numbered (Modal.sent s) ->
  0 <= Modal.frameCountRef (Modal.step s e) /\
  Forall modal_well_numbered (Modal.sent (Modal.step s e)).
Proof.
  intros [Hcount Hsent]. destruct e as [ | | | | | | | | | | | | photo | ].
  13: {
    cbn [Modal.step].
    destruct (Modal.inflight s) as [| n]; [now split |].
    rewrite modal_resume_sent, modal_resume_frameCount.
    change (Modal.ws_is_open (Modal.set_inflight n s)) with (Modal.ws_is_open s).
    change (Modal.sent (Modal.set_inflight n s)) with (Modal.sent s).
    change (Modal.frameCountRef (Modal.set_inflight n s)) with (Modal.frameCountRef s).
    destruct photo as [base64 width height | |]; try (now split).
    destruct (has_base64 (Photo base64 width height)); cbn [andb]; [| now split].
    split; [lia |].
    destruct (Modal.ws_is_open s); [| exact Hsent].
    apply Forall_app. split; [exact Hsent |].
    constructor; [exact I |].
    destruct (Z.rem (Modal.frameCountRef s + 1) 5 =? 0) eqn:Hfive; constructor; [| constructor].
    apply Z.eqb_eq in Hfive. cbn. split; [| exact Hfive].
    apply multiple_of_is_large; [lia | lia | exact Hfive]. }
  all: modal_handlers; split_matches; cbn; split; try assumption; try lia.
  all: apply Forall_snoc; [assumption | exact I].
Qed.

(** X12.  Whatever the main screen has transmitted is well numbered: in
    every reachable state the frame counter is not negative, every frame
    message sent carries a frame number of at least 1 and every
    acknowledgement a positive multiple of 10.  On the modal screen every
    acknowledgement sent carries a positive multiple of 5. *)
Theorem X12_sent_messages_are_well_numbered :
  (forall s, Index.reachable s ->
             0 <= Index.frameCountRef s /\
             Forall index_well_numbered (Index.sent s)) /\
  (forall s, Modal.reachable s ->
             0 <= Modal.frameCountRef s /\
             Forall modal_well_numbered (Modal.sent s)).
Proof.
  split.
  - apply index_invariant; [cbn; split; [lia | constructor] |].
    intros s e _. apply index_step_numbering.
  - apply modal_invariant; [cbn; split; [lia | constructor] |].
    intros s e _. apply modal_step_numbering.
Qed.

Lemma X12_sent_messages_are_well_numbered_witness :
  (0 <= Index.frameCountRef Scenario.index_reconnected /\
   Forall index_well_numbered (Index.sent Scenario.index_reconnected)) /\
  (0 <= Modal.frameCountRef Scenario.modal_restarted /\
   Forall modal_well_numbered (Modal.sent Scenario.modal_restarted)).
Proof.
  split.
  - apply (proj1 X12_sent_messages_are_well_numbered).
    unfold Scenario.index_reconnected, Scenario.index_closed, Scenario.index_streaming,
      Scenario.index_connected.
    apply index_reachable_run. constructor. repeat apply index_reachable_run. constructor.
  - apply (proj2 X12_sent_messages_are_well_numbered).
    unfold Scenario.modal_restarted, Scenario.modal_stopped, Scenario.modal_four_frames,
      Scenario.modal_streaming.
    do 2 constructor. repeat apply modal_reachable_run. constructor.
Defined.

Lemma index_stopVideoStream_open (s : Index.State) :
  Index.ws_is_open (Index.stopVideoStream s) = Index.ws_is_open s.
Proof.
  unfold Index.stopVideoStream.
  destruct s as [a h t c st ic rate fc cam ws cnt iv ea stream last mounted socks fl tos out].
  destruct iv; reflexivity.
Qed.

Lemma index_step_silent (s : Index.State) (e : Index.Event) :
  Index.ws_is_open s = false -> Index.sent (Index.step s e) = Index.sent s.
Proof.
  intros Hclosed. destruct e as [ | | | | | | | | | | | | | i photo | i ].
  14: { cbn [Index.step].
        destruct (nth_error (Index.inflight s) i) as [c |]; [| reflexivity].
        rewrite index_resume_closed; [reflexivity | exact Hclosed]. }
  14: { cbn [Index.step].
        destruct (nth_error (Index.timeouts s) i) as [t |]; [| reflexivity].
        destruct (Index.callback t) as [c fps | fps | fps newFPS]; cbn [Index.run_callback].
        - unfold Index.startAnalysis, Index.setTimeout, Index.connectWebSocket, Index.send.
          destruct c; cbn; [| reflexivity].
          change (Index.ws_is_open _) with (Index.ws_is_open s). rewrite Hclosed. reflexivity.
        - unfold Index.startVideoStream. split_matches; reflexivity.
        - unfold Index.startVideoStream. split_matches; reflexivity. }
  8: { cbn [Index.step]. destruct (Index.analysisActive s); [reflexivity |].
       unfold Index.startAnalysis, Index.setTimeout, Index.connectWebSocket, Index.send.
       destruct (Index.isConnected s); cbn; [| reflexivity].
       change (Index.ws_is_open _) with (Index.ws_is_open s). rewrite Hclosed. reflexivity. }
  8: { cbn [Index.step]. destruct (Index.analysisActive s); [| reflexivity].
       unfold Index.stopAnalysis. cbv zeta.
       rewrite index_stopVideoStream_open.
       change (Index.ws_is_open (Index.setCurrentPrediction _ _)) with (Index.ws_is_open s).
       rewrite Hclosed. unfold Index.stopVideoStream. cbn. split_matches; reflexivity. }
  all: index_handlers; split_matches; reflexivity.
Qed.

(** X13.  The main screen never transmits on a socket that is not open:
    whatever happens while the socket it references is missing, connecting,
    closing or closed, the list of sent messages stays as it is. *)
Theorem X13_nothing_is_sent_unless_open :
  forall s e, Index.ws_is_open s = false -> Index.sent (Index.step s e) = Index.sent s.
Proof. exact index_step_silent. Qed.

Lemma X13_nothing_is_sent_unless_open_witness :
  Index.sent (Index.step Scenario.index_closed Index.PressStart)
    = Index.sent Scenario.index_closed.
Proof. apply X13_nothing_is_sent_unless_open. vm_compute. reflexivity. Defined.

(** ** Timers of the modal screen *)

Lemma modal_step_timer_ids (s : Modal.State) (e : Modal.Event) :
  Forall (fun id => (id < Modal.nextTimerId s)%nat) (Modal.intervals s) ->
  Forall (fun id => (id < Modal.nextTimerId (Modal.step s e))%nat)
         (Modal.intervals (Modal.step s e)).
Proof.
  intros H.
  assert (Hfilter : forall id,
             Forall (fun j => (j < Modal.nextTimerId s)%nat)
                    (filter (fun j => negb (Nat.eqb j id)) (Modal.intervals s))).
  { intros id. rewrite Forall_forall in *. intros j Hj.
    apply filter_In in Hj. apply H. tauto. }
  assert (Hnew : Forall (fun j => (j < S (Modal.nextTimerId s))%nat)
                        (Modal.intervals s ++ [Modal.nextTimerId s])).
  { apply Forall_snoc; [| lia]. eapply Forall_impl; [| exact H]. cbn. intros; lia. }
  destruct e; modal_handlers; split_matches; cbn.
  all: repeat match goal with
         | E : Some _ = Some _ |- _ => injection E as <-
         | E : None = Some _ |- _ => discriminate E
         end; cbn.
  all: first [exact H | apply Hfilter | exact Hnew].
Qed.

Lemma modal_timer_ids_fresh (s : Modal.State) :
  Modal.reachable s ->
  Forall (fun id => (id < Modal.nextTimerId s)%nat) (Modal.intervals s).
Proof.
  revert s. apply modal_invariant.
  - constructor.
  - intros s e _. apply modal_step_timer_ids.
Qed.

Lemma modal_start_effect (s : Modal.State) :
  let started := Modal.startAnalysis true s in
  Modal.intervals started = Modal.intervals s ++ [Modal.nextTimerId s] /\
  Modal.captureIntervalRef started = Some (Modal.nextTimerId s) /\
  Modal.cameraRef started = Modal.cameraRef s /\
  Modal.ws_is_open started = Modal.ws_is_open s /\
  Modal.inflight started = Modal.inflight s.
Proof.
  unfold Modal.startAnalysis, Modal.setInterval, Modal.transmit. cbn.
  match goal with |- context [if ?b then _ else _] => destruct b end; repeat split.
Qed.

Lemma modal_stop_effect (s : Modal.State) (id : nat) :
  Modal.captureIntervalRef s = Some id ->
  let stopped := Modal.stopAnalysis s in
  Modal.intervals stopped
    = filter (fun j => negb (Nat.eqb j id)) (Modal.intervals s) /\
  Modal.captureIntervalRef stopped = None /\
  Modal.analysisActive stopped = false /\
  Modal.cameraRef stopped = Modal.cameraRef s /\
  Modal.ws_is_open stopped = Modal.ws_is_open s /\
  Modal.inflight stopped = Modal.inflight s.
Proof.
  intros Href. unfold Modal.stopAnalysis, Modal.clearInterval, Modal.transmit. cbn.
  rewrite Href. cbn.
  match goal with |- context [if ?b then _ else _] => destruct b end; repeat split.
Qed.

Lemma modal_start_then_stop (s : Modal.State) :
  let stopped := Modal.stopAnalysis (Modal.startAnalysis true s) in
  Modal.intervals stopped
    = filter (fun j => negb (Nat.eqb j (Modal.nextTimerId s)))
             (Modal.intervals s ++ [Modal.nextTimerId s]) /\
  Modal.captureIntervalRef stopped = None /\
  Modal.analysisActive stopped = false /\
  Modal.cameraRef stopped = Modal.cameraRef s /\
  Modal.ws_is_open stopped = Modal.ws_is_open s /\
  Modal.inflight stopped = Modal.inflight s.
Proof.
  destruct (modal_start_effect s) as (Hivs & Href & Hcam & Hws & Hfl).
  cbv zeta in *.
  destruct (modal_stop_effect (Modal.startAnalysis true s) _ Href)
    as (Hivs' & Href' & Hoff & Hcam' & Hws' & Hfl').
  cbv zeta in *.
  rewrite Hivs', Hivs, Hcam', Hcam, Hws', Hws, Hfl', Hfl.
  repeat split; assumption.
Qed.

(** X14.  On the modal screen a capture timer that is still armed when a
    stream is started is never cleared by that stream: [startAnalysis]
    overwrites the timer reference without clearing the old timer, and the
    [stopAnalysis] that follows clears the new timer only.  After the stop,
    analysis is off and the timer reference is empty, yet the old timer is
    armed and its ticks still call the camera. *)
Theorem X14_modal_start_leaks_armed_timer :
  forall s id,
    Modal.reachable s ->
    In id (Modal.intervals s) ->
    Modal.cameraRef s = true ->
    Modal.ws_is_open s = true ->
    let stopped := Modal.stopAnalysis (Modal.startAnalysis true s) in
    Modal.analysisActive stopped = false /\
    Modal.captureIntervalRef stopped = None /\
    In id (Modal.intervals stopped) /\
    Modal.inflight (Modal.step stopped (Modal.Tick id)) = S (Modal.inflight stopped).
Proof.
  intros s id Hreach Hid Hcam Hws stopped.
  destruct (modal_start_then_stop s) as (Hivs & Href & Hoff & Hcam' & Hws' & _).
  fold stopped in Hivs, Href, Hoff, Hcam', Hws'. clearbody stopped.
  rewrite Hcam in Hcam'. rewrite Hws in Hws'.
  assert (Hstill : In id (Modal.intervals stopped)).
  { rewrite Hivs. apply filter_In. split.
    - apply in_or_app. now left.
    - pose proof (modal_timer_ids_fresh s Hreach) as Hfresh.
      rewrite Forall_forall in Hfresh. specialize (Hfresh id Hid).
      apply negb_true_iff, Nat.eqb_neq. lia. }
  split; [exact Hoff |]. split; [exact Href |]. split; [exact Hstill |].
  cbn [Modal.step].
  assert (Hex : existsb (Nat.eqb id) (Modal.intervals stopped) = true).
  { apply existsb_exists. exists id. split; [exact Hstill | apply Nat.eqb_refl]. }
  rewrite Hex. unfold Modal.captureFrame_begin. rewrite Hcam', Hws'. reflexivity.
Qed.

Lemma X14_modal_start_leaks_armed_timer_witness :
  Modal.analysisActive
    (Modal.stopAnalysis (Modal.startAnalysis true Session.modal_reopened)) = false /\
  In 1%nat (Modal.intervals
              (Modal.stopAnalysis (Modal.startAnalysis true Session.modal_reopened))).
Proof.
  destruct (X14_modal_start_leaks_armed_timer Session.modal_reopened 1%nat)
    as (Hoff & _ & Hin & _).
  - unfold Session.modal_reopened, Scenario.modal_streaming.
    repeat apply modal_reachable_run. constructor.
  - vm_compute. now left.
  - vm_compute. reflexivity.
  - vm_compute. reflexivity.
  - exact (conj Hoff Hin).
Defined.

(** ** Inbound messages and the camera button *)







(** X16.  On both screens the flip button is an involution that touches
    the camera side only: pressing it twice gives back the state, and one
    press changes no cell but [facing]. *)
Theorem X16_flip_twice_is_identity :
  (forall s, Index.step (Index.step s Index.PressFlip) Index.PressFlip = s) /\
  (forall s, Index.step s Index.PressFlip
             = Index.setFacing (match Index.facing s with back => front | front => back end) s) /\
  (forall s, Index.facing (Index.step s Index.PressFlip) <> Index.facing s) /\
  (forall s, Modal.step (Modal.step s Modal.PressFlip) Modal.PressFlip = s) /\
  (forall s, Modal.step s Modal.PressFlip
             = Modal.setFacing (match Modal.facing s with back => front | front => back end) s) /\
  (forall s, Modal.facing (Modal.step s Modal.PressFlip) <> Modal.facing s).
Proof.
  split; [| split; [| split; [| split; [| split]]]].
  - intros [a h t c st ic rate [|] cam ws cnt iv ea stream last mounted socks fl tos out];
      reflexivity.
  - reflexivity.
  - intros s. cbn. destruct (Index.facing s); discriminate.
  - intros [a h t c st ic [|] cam ws cnt iv socks ivs next fl tos al out]; reflexivity.
  - reflexivity.
  - intros s. cbn. destruct (Modal.facing s); discriminate.
Qed.

(** ** Rates *)

Ltac five := split; [| split; [| split; [| split]]].

Lemma next_fps_option (fps : Z) : In (next_fps fps) Index.fpsOptions.
Proof.
  unfold next_fps.
  destruct (Z.eqb fps 3); [cbn; auto |].
  destruct (Z.eqb fps 5); [cbn; auto |].
  destruct (Z.eqb fps 8); cbn; auto.
Qed.

Lemma index_startVideoStream_rates (fps : Z) (s : Index.State) :
  In fps Index.fpsOptions -> index_rates_ok s ->
  index_rates_ok (Index.startVideoStream fps s).
Proof.
  intros Hfps (H1 & H2 & H3 & H4 & H5). unfold Index.startVideoStream.
  destruct (negb (Index.cameraRef s) || negb (Index.ws_is_open s))%bool.
  - five; first [assumption | exact I].
  - unfold index_rates_ok. cbn -[In Index.fpsOptions]. five; try assumption.
    split; [exact Hfps | split; reflexivity].
Qed.

Lemma index_startAnalysis_rates (c : bool) (fps : Z) (s : Index.State) :
  In fps Index.fpsOptions -> index_rates_ok s ->
  index_rates_ok (Index.startAnalysis c fps s).
Proof.
  intros Hfps (H1 & H2 & H3 & H4 & H5).
  unfold Index.startAnalysis, Index.setTimeout, Index.connectWebSocket, Index.send.
  destruct c; cbn.
  - match goal with |- context [if ?b then _ else _] => destruct b end;
      unfold index_rates_ok; cbn -[In Index.fpsOptions]; five; try assumption.
    all: apply Forall_snoc; assumption.
  - unfold index_rates_ok; cbn -[In Index.fpsOptions]; five; try assumption.
    apply Forall_snoc; assumption.
Qed.

Lemma index_stopVideoStream_rates (s : Index.State) :
  index_rates_ok s -> index_rates_ok (Index.stopVideoStream s).
Proof.
  intros (H1 & H2 & H3 & H4 & H5). unfold Index.stopVideoStream, index_rates_ok.
  cbn -[In Index.fpsOptions]. destruct (Index.captureIntervalRef s) eqn:E;
    cbn -[In Index.fpsOptions]; rewrite ?E; five; first [assumption | exact I].
Qed.

Lemma index_step_rates (s : Index.State) (e : Index.Event) :
  index_rates_ok s -> index_rates_ok (Index.step s e).
Proof.
  intros H. pose proof H as (H1 & H2 & H3 & H4 & H5).
  destruct e as [ | | | | | | | | | | | | now | i photo | i ]; cbn [Index.step].
  8: { destruct (Index.analysisActive s); [exact H |].
       apply index_startAnalysis_rates; assumption. }
  8: { destruct (Index.analysisActive s); [| exact H].
       unfold Index.stopAnalysis, Index.send. cbv zeta.
       match goal with |- context [if ?b then _ else _] => destruct b end.
       - pose proof (index_stopVideoStream_rates
                       (Index.setCurrentPrediction None
                          (Index.setStatus "⏸️ Ready for Analysis"
                             (Index.setAnalysisActive false s))) H)
           as (K1 & K2 & K3 & K4 & K5).
         unfold index_rates_ok. cbn -[In Index.fpsOptions]. five; try assumption.
         apply Forall_snoc; [assumption | exact I].
       - apply index_stopVideoStream_rates. exact H. }
  8: { unfold Index.toggleStreamFPS. cbv zeta. rewrite index_newFPS.
        destruct (Index.analysisActive s).
        - pose proof (index_stopVideoStream_rates
                        (Index.setStatus
                           ("🔄 Switching to " ++ string_of_Z (next_fps (Index.streamFPS s))
                            ++ " FPS...")%string
                           (Index.setStreamFPS (next_fps (Index.streamFPS s)) s)))
            as K.
          destruct K as (K1 & K2 & K3 & K4 & K5).
          { unfold index_rates_ok. cbn -[In Index.fpsOptions]. five; try assumption.
            apply next_fps_option. }
          unfold Index.setTimeout, index_rates_ok. cbn -[In Index.fpsOptions]. five; try assumption.
          apply Forall_snoc; [assumption | exact H1].
        - unfold index_rates_ok. cbn -[In Index.fpsOptions]. five; try assumption.
          apply next_fps_option. }
  10: { destruct (Index.captureIntervalRef s) as [iv |] eqn:Eiv; [| exact H].
        unfold Index.captureFrame_begin.
        destruct (negb (Index.isMountedRef s) || negb (Index.isStreamingRef s)
                  || negb (Index.cameraRef s))%bool; [exact H |].
        destruct (Index.Qlt_bool _ _); [exact H |].
        unfold index_rates_ok. cbn -[In Index.fpsOptions]. rewrite Eiv.
        split; [exact H1 |]. split; [exact H2 |]. split; [exact H3 |].
        split; [| exact H5].
        apply Forall_snoc; [exact H4 | apply H3]. }
  10: { destruct (nth_error (Index.inflight s) i) as [c |] eqn:Hc; [| exact H].
        pose proof (Forall_nth_error _ _ _ _ H4 Hc) as Hrate.
        pose proof (Forall_remove_nth _ _ i H4) as Hrest.
        unfold Index.captureFrame_resume, Index.send.
        destruct photo as [base64 width height | |];
          try (unfold index_rates_ok; cbn -[In Index.fpsOptions]; five; first [assumption | exact I]).
        destruct (has_base64 (Photo base64 width height)
                  && Index.ws_is_open (Index.set_inflight (remove_nth i (Index.inflight s)) s))%bool;
          [| unfold index_rates_ok; cbn -[In Index.fpsOptions]; five; first [assumption | exact I]].
        cbn.
        destruct (Z.rem (Index.frameCountRef s + 1) 15 =? 0); cbn;
          destruct (Z.rem (Index.frameCountRef s + 1) 10 =? 0);
          unfold index_rates_ok; cbn -[In Index.fpsOptions]; five; try assumption.
        all: repeat apply Forall_snoc; try assumption; exact I. }
  10: { destruct (nth_error (Index.timeouts s) i) as [t |] eqn:Ht; [| exact H].
        pose proof (Forall_nth_error _ _ _ _ H2 Ht) as Hrate. cbv beta in Hrate.
        pose proof (Forall_remove_nth _ _ i H2) as Hrest.
        assert (Hs : index_rates_ok (Index.set_timeouts (remove_nth i (Index.timeouts s)) s)).
        { unfold index_rates_ok. cbn -[In Index.fpsOptions]. five; first [assumption | exact I]. }
        destruct (Index.callback t) as [c fps | fps | fps newFPS];
          cbn [index_callback_rate Index.run_callback] in *.
        - apply index_startAnalysis_rates; assumption.
        - apply index_startVideoStream_rates; assumption.
        - pose proof (index_startVideoStream_rates fps _ Hrate Hs) as (K1 & K2 & K3 & K4 & K5).
          unfold index_rates_ok. cbn -[In Index.fpsOptions]. five; first [assumption | exact I]. }
  all: index_handlers; split_matches; unfold index_rates_ok;
    cbn -[In Index.fpsOptions]; five; first [assumption | exact I].
Qed.

(** X17.  Every rate the main screen works with is one of 3, 5, 8 and 10:
    in every reachable state this holds of the target rate, of the rate
    captured by each pending timeout and by each capture in flight, and of
    every rate announced to the server in a start or ack message; an armed
    capture timer is the one [startVideoStream] creates for such a rate,
    with the positive interval [100 / rate] and half of it as period. *)
Theorem X17_rates_stay_within_options :
  forall s,
    Index.reachable s ->
    index_rates_ok s /\
    (forall iv, Index.captureIntervalRef s = Some iv ->
                (0 < Index.iv_frameInterval iv)%Q /\ (0 < Index.iv_delay iv)%Q).
Proof.
  intros s Hreach.
  assert (Hok : index_rates_ok s).
  { revert s Hreach. apply index_invariant.
    - unfold index_rates_ok. five; [cbn; auto | constructor | exact I | constructor | constructor].
    - intros s e _. apply index_step_rates. }
  split; [exact Hok |].
  intros iv Hiv. destruct Hok as (_ & _ & H3 & _). rewrite Hiv in H3.
  destruct H3 as (Hrate & -> & ->).
  cbn in Hrate.
  destruct Hrate as [<- | [<- | [<- | [<- | []]]]]; split; reflexivity.
Qed.

Lemma X17_rates_stay_within_options_witness :
  index_rates_ok Scenario.index_reconnected.
Proof.
  apply X17_rates_stay_within_options.
  unfold Scenario.index_reconnected, Scenario.index_closed, Scenario.index_streaming,
    Scenario.index_connected.
  apply index_reachable_run. constructor. repeat apply index_reachable_run. constructor.
Defined.
